(** * Hurricane-Visualizer: the scraping pipeline of [PythonScript.py]

    A shallow embedding of the row normaliser, the track record builder,
    the dataset cache and the driver of [PythonScript.py], with the
    properties of its specification stated and settled against it.

    Conventions of the embedding:
    - a Python [str] is a [string]; its characters are the code points
      below 256;
    - a cell that may be [None] is an [option string];
    - a Python exception is a constructor of [exn], and code that may
      raise returns a [result];
    - a [dict] with string keys is a [gmap string _], a list indexed by
      position uses stdpp's lookup [!!] and insert [<[i:=x]>], with the
      [IndexError] of Python written out in [index]. *)

From Stdlib Require Import ZArith String Ascii DecimalString.
From stdpp Require Import base option list strings gmap.

Local Open Scope string_scope.
Local Open Scope Z_scope.

(** ** Exceptions and results *)

Inductive exn : Type :=
  | IndexError
  | TypeError
  | ValueError
  | AttributeError
  | RequestException.

Inductive result (A : Type) : Type :=
  | Ok (a : A)
  | Raise (e : exn).
Arguments Ok {A} a.
Arguments Raise {A} e.

#[global] Instance result_ret : MRet result := fun A a => Ok a.
#[global] Instance result_bind : MBind result := fun A B f m =>
  match m with
  | Ok a => f a
  | Raise e => Raise e
  end.
#[global] Instance result_fmap : FMap result := fun A B f m =>
  match m with
  | Ok a => Ok (f a)
  | Raise e => Raise e
  end.

Definition is_ok {A} (r : result A) : bool :=
  match r with Ok _ => true | Raise _ => false end.

(** [l[i]] for a non-negative [i]. *)
Definition index {A} (l : list A) (i : nat) : result A :=
  match l !! i with
  | Some x => Ok x
  | None => Raise IndexError
  end.

(** ** Strings *)

(** [str.isspace] on the code points below 256. *)
Definition isspace (c : ascii) : bool :=
  let n := N_of_ascii c in
  ((9 <=? n) && (n <=? 13) || (28 <=? n) && (n <=? 32)
   || (n =? 133) || (n =? 160))%N.

(** [" " in s] *)
Fixpoint contains_space (s : string) : bool :=
  match s with
  | EmptyString => false
  | String c s' => Ascii.eqb c " " || contains_space s'
  end.

(** [s.split()]: the maximal runs of non-whitespace characters. *)
Fixpoint split_from (cur : string) (s : string) : list string :=
  match s with
  | EmptyString => if String.eqb cur "" then [] else [cur]
  | String c s' =>
      if isspace c
      then (if String.eqb cur "" then split_from "" s'
            else cur :: split_from "" s')
      else split_from (cur +:+ String c "") s'
  end.

Definition split (s : string) : list string := split_from "" s.

(** Truth value of a [str] and of an optional [str]. *)
Definition str_truthy (s : string) : bool := negb (String.eqb s "").

(** A cell after normalisation: a text or [None]. *)
Abbreviation cell := (option string).

Definition cell_truthy (c : cell) : bool :=
  match c with
  | Some s => str_truthy s
  | None => false
  end.

(** ** Row normaliser: [add_missing_dates_and_empty_cells] *)

Definition NA : string := "N / A".

(** [['N / A' if not cell else cell for cell in data[0]]] *)
Definition mark_empty (row : list string) : list string :=
  (fun cell => if str_truthy cell then cell else NA) <$> row.

(** One step of [for i, cell in enumerate(row)]: the value left in
    [row[i]].  [last_row] is the previous row after its own pass. *)
Definition fill_cell (last_row : option (list cell)) (i : nat)
    (c : string) : result cell :=
  if String.eqb c NA then Ok None
  else if str_truthy c then Ok (Some c)
  else match last_row with
       | Some (x :: l) => index (x :: l) i
       | _ => Ok (Some c)
       end.

Fixpoint fill_cells (last_row : option (list cell)) (i : nat)
    (row : list string) : result (list cell) :=
  match row with
  | [] => Ok []
  | c :: row' =>
      v ← fill_cell last_row i c;
      vs ← fill_cells last_row (S i) row';
      Ok (v :: vs)
  end.

(** The datetime step of the loop body: the new running date and the row
    with [row[1]] rewritten. *)
Definition fix_datetime (last_date : option string) (row : list string)
    : result (option string * list string) :=
  datetime_cell ← index row 1;
  if contains_space datetime_cell
  then d ← index (split datetime_cell) 0; Ok (Some d, row)
  else match last_date with
       | Some d =>
           if str_truthy d
           then Ok (last_date, <[1%nat := d +:+ " " +:+ datetime_cell]> row)
           else Ok (last_date, <[1%nat := datetime_cell]> row)
       | None => Ok (last_date, <[1%nat := datetime_cell]> row)
       end.

(** [for row in data: ...], threading [last_date] and [last_row]. *)
Fixpoint normalize_rows (last_date : option string)
    (last_row : option (list cell)) (data : list (list string))
    : result (list (list cell)) :=
  match data with
  | [] => Ok []
  | row :: data' =>
      '(last_date', row1) ← fix_datetime last_date row;
      row2 ← fill_cells last_row 0 row1;
      rest ← normalize_rows last_date' (Some row2) data';
      Ok (row2 :: rest)
  end.

Definition add_missing_dates_and_empty_cells (data : list (list string))
    : result (list (list cell)) :=
  match data with
  | [] => Ok []
  | row0 :: data' => normalize_rows None None (mark_empty row0 :: data')
  end.

(** ** Builtin conversions used by the record builder *)

Fixpoint lstrip (s : string) : string :=
  match s with
  | EmptyString => EmptyString
  | String c s' => if isspace c then lstrip s' else s
  end.

Definition reverse (s : string) : string :=
  string_of_list_ascii (rev (list_ascii_of_string s)).

(** [s.strip()] *)
Definition strip (s : string) : string :=
  reverse (lstrip (reverse (lstrip s))).

Definition digit_of (c : ascii) : option Z :=
  let n := N_of_ascii c in
  if ((48 <=? n) && (n <=? 57))%N then Some (Z.of_N n - 48) else None.

(** The digits of an integer literal: decimal digits, with single
    underscores allowed between two digits. *)
Fixpoint int_digits (acc : Z) (after_digit : bool) (s : string) : option Z :=
  match s with
  | EmptyString => if after_digit then Some acc else None
  | String c s' =>
      match digit_of c with
      | Some d => int_digits (10 * acc + d) true s'
      | None =>
          if Ascii.eqb c "_" && after_digit then int_digits acc false s'
          else None
      end
  end.

(** [int(s)] for a [str]: surrounding whitespace is dropped, one sign is
    allowed; anything else raises [ValueError].  (CPython's limit on the
    number of digits, 4300 by default, is not modelled.) *)
Definition py_int (s : string) : result Z :=
  let of_digits (neg : bool) (t : string) : result Z :=
    match int_digits 0 false t with
    | Some n => Ok (if neg then - n else n)
    | None => Raise ValueError
    end in
  match strip s with
  | String "+" t => of_digits false t
  | String "-" t => of_digits true t
  | t => of_digits false t
  end.

(** [str(n)] for an [int]. *)
Definition str_of_int (n : Z) : string := NilZero.string_of_int (Z.to_int n).

(** ** [datetime]: the fields of a naive datetime *)

Record datetime : Type := mkDatetime {
  dt_year : Z; dt_month : Z; dt_day : Z;
  dt_hour : Z; dt_minute : Z; dt_second : Z
}.

Definition is_leap (y : Z) : bool :=
  (y mod 4 =? 0) && (negb (y mod 100 =? 0) || (y mod 400 =? 0)).

Definition days_in_month (y m : Z) : Z :=
  if m =? 2 then (if is_leap y then 29 else 28)
  else if (m =? 4) || (m =? 6) || (m =? 9) || (m =? 11) then 30
  else 31.

(** The checks of the [datetime] constructor. *)
Definition valid_datetime (d : datetime) : bool :=
  (1 <=? dt_year d) && (dt_year d <=? 9999)
  && (1 <=? dt_month d) && (dt_month d <=? 12)
  && (1 <=? dt_day d) && (dt_day d <=? days_in_month (dt_year d) (dt_month d))
  && (0 <=? dt_hour d) && (dt_hour d <=? 23)
  && (0 <=? dt_minute d) && (dt_minute d <=? 59)
  && (0 <=? dt_second d) && (dt_second d <=? 59).

(** *** [datetime.strptime(s, "%Y-%m-%d %H:%M:%S")]

    [strptime] turns the format into a regular expression and takes its
    first match at the start of the string.  A matcher returns the ways
    it can match a prefix, in the order the backtracking search of [re]
    tries them. *)

Definition matcher (A : Type) : Type := string -> list (A * string).

Definition m_ret {A} (a : A) : matcher A := fun s => [(a, s)].

Definition m_bind {A B} (p : matcher A) (f : A -> matcher B) : matcher B :=
  fun s => concat ((fun '(a, r) => f a r) <$> p s).

Definition m_alt {A} (p q : matcher A) : matcher A := fun s => (p s ++ q s)%list.

(** One digit between [lo] and [hi]; [\d] is [digit_between 0 9]. *)
Definition digit_between (lo hi : Z) : matcher Z := fun s =>
  match s with
  | String c r =>
      match digit_of c with
      | Some d => if (lo <=? d) && (d <=? hi) then [(d, r)] else []
      | None => []
      end
  | EmptyString => []
  end.

Definition lit (c : ascii) : matcher unit := fun s =>
  match s with
  | String c' r => if Ascii.eqb c c' then [(tt, r)] else []
  | EmptyString => []
  end.

(** Two digits, the first in [a1..b1], the second in [a2..b2]. *)
Definition two_digits (a1 b1 a2 b2 : Z) : matcher Z :=
  m_bind (digit_between a1 b1) (fun x =>
  m_bind (digit_between a2 b2) (fun y => m_ret (10 * x + y))).

(** [\s+], greedy: the longest run first. *)
Fixpoint spaces (s : string) : list (unit * string) :=
  match s with
  | String c r => if isspace c then (spaces r ++ [(tt, r)])%list else []
  | EmptyString => []
  end.

(** [%Y]: [\d\d\d\d] *)
Definition re_Y : matcher Z :=
  m_bind (two_digits 0 9 0 9) (fun hi =>
  m_bind (two_digits 0 9 0 9) (fun lo => m_ret (100 * hi + lo))).

(** [%m]: [1[0-2]|0[1-9]|[1-9]] *)
Definition re_m : matcher Z :=
  m_alt (two_digits 1 1 0 2) (m_alt (two_digits 0 0 1 9) (digit_between 1 9)).

(** [%d]: [3[0-1]|[1-2]\d|0[1-9]|[1-9]| [1-9]] *)
Definition re_d : matcher Z :=
  m_alt (two_digits 3 3 0 1) (m_alt (two_digits 1 2 0 9)
  (m_alt (two_digits 0 0 1 9) (m_alt (digit_between 1 9)
  (m_bind (lit " ") (fun _ => digit_between 1 9))))).

(** [%H]: [2[0-3]|[0-1]\d|\d] *)
Definition re_H : matcher Z :=
  m_alt (two_digits 2 2 0 3) (m_alt (two_digits 0 1 0 9) (digit_between 0 9)).

(** [%M]: [[0-5]\d|\d] *)
Definition re_M : matcher Z :=
  m_alt (two_digits 0 5 0 9) (digit_between 0 9).

(** [%S]: [6[0-1]|[0-5]\d|\d] *)
Definition re_S : matcher Z :=
  m_alt (two_digits 6 6 0 1) (m_alt (two_digits 0 5 0 9) (digit_between 0 9)).

Definition re_datetime : matcher datetime :=
  m_bind re_Y (fun y => m_bind (lit "-") (fun _ =>
  m_bind re_m (fun m => m_bind (lit "-") (fun _ =>
  m_bind re_d (fun d => m_bind spaces (fun _ =>
  m_bind re_H (fun h => m_bind (lit ":") (fun _ =>
  m_bind re_M (fun mi => m_bind (lit ":") (fun _ =>
  m_bind re_S (fun sec => m_ret (mkDatetime y m d h mi sec)))))))))))).

(** [None] stands for [ValueError]: no match, unconverted data after the
    first match, or fields the [datetime] constructor refuses. *)
Definition strptime (s : string) : option datetime :=
  match re_datetime s with
  | (d, EmptyString) :: _ => if valid_datetime d then Some d else None
  | _ => None
  end.

Definition pad2 (n : Z) : string :=
  if n <? 10 then "0" +:+ str_of_int n else str_of_int n.

Definition pad4 (n : Z) : string :=
  if n <? 10 then "000" +:+ str_of_int n
  else if n <? 100 then "00" +:+ str_of_int n
  else if n <? 1000 then "0" +:+ str_of_int n
  else str_of_int n.

(** [d.strftime("%Y-%m-%d %H:%M")], the year on four digits. *)
Definition strftime (d : datetime) : string :=
  pad4 (dt_year d) +:+ "-" +:+ pad2 (dt_month d) +:+ "-" +:+ pad2 (dt_day d)
  +:+ " " +:+ pad2 (dt_hour d) +:+ ":" +:+ pad2 (dt_minute d).

(** [d.replace(second=0)] *)
Definition replace_second0 (d : datetime) : datetime :=
  mkDatetime (dt_year d) (dt_month d) (dt_day d) (dt_hour d) (dt_minute d) 0.

(** Days from 1970-01-01 to the civil date [y]-[m]-[d]. *)
Definition days_from_civil (y m d : Z) : Z :=
  let y' := if m <=? 2 then y - 1 else y in
  let era := y' / 400 in
  let yoe := y' - era * 400 in
  let mp := (m + 9) mod 12 in
  let doy := (153 * mp + 2) / 5 + d - 1 in
  let doe := yoe * 365 + yoe / 4 - yoe / 100 + doy in
  era * 146097 + doe - 719468.

(** Seconds from the epoch to [d] read as a UTC time. *)
Definition utc_seconds (d : datetime) : Z :=
  days_from_civil (dt_year d) (dt_month d) (dt_day d) * 86400
  + dt_hour d * 3600 + dt_minute d * 60 + dt_second d.

(** ** Python values, as [json] stores and returns them *)

#[warnings="-register-all"]
Inductive value (F : Type) : Type :=
  | VNone
  | VBool (b : bool)
  | VInt (n : Z)
  | VFloat (x : F)
  | VStr (s : string)
  | VList (l : list (value F))
  | VDict (d : list (string * value F)).
Arguments VNone {F}.
Arguments VBool {F} b.
Arguments VInt {F} n.
Arguments VFloat {F} x.
Arguments VStr {F} s.
Arguments VList {F} l.
Arguments VDict {F} d.

(** ** The collaborators: platform, [json], [requests] and [bs4] *)

(** The queries the script sends to [bs4]. *)
Inductive selector : Type :=
  | LayoutTables   (* find_all('table', {'class': 'ishade', 'summary': 'Layout table.'}) *)
  | Tables         (* find_all('table') *)
  | Tr             (* find_all('tr') *)
  | Td             (* find_all('td') *)
  | TdTh           (* find_all(['td', 'th']) *)
  | AHref          (* find_all('a', href=True) *)
  | H1.            (* find('h1') is the first of find_all('h1') *)

Class Platform : Type := {
  (** Python floats, and [float(s)] for a [str]. *)
  float : Type;
  py_float : string -> result float;
  float_is_zero : float -> bool;
  (** Offset of local time from UTC, in seconds, at a naive local time. *)
  utcoffset : datetime -> Z;
  (** [json.dump(data, file, indent=4)] and [json.load(file)]; a
      [json.JSONDecodeError] is a [ValueError]. *)
  json_dumps : value float -> string;
  json_loads : string -> result (value float);
  (** [requests.get(url)]: the status code and the body, or an exception
      of [requests]. *)
  requests_get : string -> result (Z * string);
  (** [BeautifulSoup(markup, 'html.parser')] and the queries on its tags. *)
  Tag : Type;
  BeautifulSoup : option string -> result Tag;
  find_all : selector -> Tag -> list Tag;
  text : Tag -> string;
  get_text_strip : Tag -> string;
  href : Tag -> string
}.

(** ** Track record builder: the per-row part of [save_data_as_json] *)

(** The [month] argument: a [str] read from the prompt, or an [int]. *)
Inductive month_arg : Type :=
  | MonthStr (s : string)
  | MonthInt (n : Z).

Definition month_truthy (month : option month_arg) : bool :=
  match month with
  | Some (MonthStr s) => str_truthy s
  | Some (MonthInt n) => negb (n =? 0)
  | None => false
  end.

(** [int(month)] *)
Definition month_int (month : option month_arg) : result Z :=
  match month with
  | Some (MonthStr s) => py_int s
  | Some (MonthInt n) => Ok n
  | None => Raise TypeError
  end.

(** The [if time: try: ... except ValueError: pass] block.  [None] is the
    [continue] of the month filter; otherwise the value left in [time]. *)
Definition filter_time (month : option month_arg) (time : cell)
    : option cell :=
  match time with
  | Some t =>
      if str_truthy t then
        match strptime t with
        | Some time_obj =>
            if month_truthy month then
              match month_int month with
              | Ok m =>
                  if negb (dt_month time_obj =? m) then None
                  else Some (Some (strftime time_obj))
              | Raise _ => Some time
              end
            else Some (Some (strftime time_obj))
        | None => Some time
        end
      else Some time
  | None => Some time
  end.

(** [x if x != "N / A" else None] *)
Definition unmark (c : cell) : cell :=
  match c with
  | Some s => if String.eqb s NA then None else c
  | None => None
  end.

(** The [if]/[elif] chain on an [int] speed.  The bands cover every
    integer ([typhoon_class_bands]), so the chain always assigns. *)
Definition typhoon_class_of (speed : Z) : Z :=
  if speed <? 34 then 0
  else if (34 <=? speed) && (speed <=? 63) then 1
  else if (64 <=? speed) && (speed <=? 82) then 2
  else if (83 <=? speed) && (speed <=? 95) then 3
  else if (96 <=? speed) && (speed <=? 112) then 4
  else if 113 <=? speed then 5
  else 0.

Section Builder.
Context `{Platform}.

Record TrackPoint : Type := mkTrackPoint {
  time : cell;
  lat : option float;
  long : option float;
  speed : string;
  pressure : string;
  class : Z
}.

(** [float(x) if x else None] *)
Definition float_or_none (c : cell) : result (option float) :=
  match c with
  | Some s => if str_truthy s then x ← py_float s; Ok (Some x) else Ok None
  | None => Ok None
  end.

(** The body of [for row in processed_data] after the month filter:
    the dictionary appended to the path. *)
Definition make_point (time : cell) (row : list cell) : result TrackPoint :=
  lat ← unmark <$> index row 3;
  long ← unmark <$> index row 4;
  speed ← unmark <$> index row 5;
  pressure ← unmark <$> index row 6;
  '(speed_str, typhoon_class) ←
     match speed with
     | Some s =>
         if str_truthy s then
           n ← py_int s;
           Ok (if negb (n =? 0) then str_of_int n else "< 35",
               typhoon_class_of n)
         else Ok ("< 35", 0)
     | None => Ok ("< 35", 0)
     end;
  lat_f ← float_or_none lat;
  long_f ← float_or_none long;
  Ok (mkTrackPoint time lat_f long_f speed_str
        (match pressure with
         | Some p => if str_truthy p then p else "> 1008"
         | None => "> 1008"
         end)
        typhoon_class).

(** One iteration: [None] when the row is skipped by [continue]. *)
Definition convert_row (month : option month_arg) (row : list cell)
    : result (option TrackPoint) :=
  time ← index row 1;
  match filter_time month time with
  | None => Ok None
  | Some time' => p ← make_point time' row; Ok (Some p)
  end.

(** [for row in processed_data: ...]: the path. *)
Fixpoint build_path (month : option month_arg) (rows : list (list cell))
    : result (list TrackPoint) :=
  match rows with
  | [] => Ok []
  | row :: rows' =>
      r ← convert_row month row;
      path ← build_path month rows';
      Ok (match r with Some p => p :: path | None => path end)
  end.

(** [int(d.timestamp())] for a naive [d]: local time.  (The range of years
    the platform's C library accepts is not modelled.) *)
Definition timestamp (d : datetime) : Z := utc_seconds d - utcoffset d.

(** The [try] block on [processed_data[0][1]].  [strptime] raises
    [TypeError] on [None], which [except ValueError] does not catch. *)
Definition start_time_of (first : list cell) : result (option Z) :=
  c ← index first 1;
  match c with
  | None => Raise TypeError
  | Some s =>
      match strptime s with
      | Some d => Ok (Some (timestamp (replace_second0 d)))
      | None => Ok None
      end
  end.

(** [start_time] is [None] when the key is not set. *)
Record StormTrack : Type := mkStormTrack {
  name : string;
  path : list TrackPoint;
  start_time : option (option Z)
}.

(** From [typhoon_data = {...}] to the dictionary that is appended. *)
Definition build_track (typhoon_name : string) (month : option month_arg)
    (processed_data : list (list cell)) : result StormTrack :=
  path ← build_path month processed_data;
  start ← match processed_data with
          | [] => Ok None
          | first :: _ => Some <$> start_time_of first
          end;
  Ok (mkStormTrack typhoon_name path start).

(** [composite_name[-2]] when the heading has two tokens or more. *)
Definition working_name (typhoon_name : string) : string :=
  let composite_name := split typhoon_name in
  if (2 <=? length composite_name)%nat
  then default "UNKNOWN" (composite_name !! (length composite_name - 2)%nat)
  else "UNKNOWN".

End Builder.

(** ** The world the script acts on

    The file system and the requests made.  Opening a file is taken to
    succeed, and a path is a regular file or a directory, not both. *)

Record world : Type := mkWorld {
  files : gmap string string;      (* regular files: path to contents *)
  dirs : gset string;              (* directories *)
  requested : list string          (* URLs fetched so far, latest first *)
}.

(** A computation with effects on the world that may raise. *)
Definition M (A : Type) : Type := world -> result A * world.

#[global] Instance M_ret : MRet M := fun A a w => (Ok a, w).
#[global] Instance M_bind : MBind M := fun A B f m w =>
  match m w with
  | (Ok a, w') => f a w'
  | (Raise e, w') => (Raise e, w')
  end.

Definition lift {A} (r : result A) : M A := fun w => (r, w).

Definition BASE_URL : string := "https://ncics.org/ibtracs/index.php".
Definition BASE_URL_ALT : string := "https://ncics.org/ibtracs/".

Definition BASIN_ABBREVIATIONS : gmap string string :=
  list_to_map
    [ ("Northern Atlantic", "na"); ("Eastern Pacific", "ep");
      ("Western Pacific", "wp"); ("Northern Indian", "ni");
      ("Southern Indian", "si"); ("Southern Pacific", "sp") ].

Definition starts_with_slash (s : string) : bool :=
  match s with String "/" _ => true | _ => false end.

(** [os.path.join(a, b)] of [posixpath]. *)
Definition path_join (a b : string) : string :=
  if starts_with_slash b then b
  else if negb (str_truthy a) || starts_with_slash (reverse a) then a +:+ b
  else a +:+ "/" +:+ b.

(** The cache file of a (year, basin) key. *)
Definition cache_file (year basin_name folder_path : string) : string :=
  let basin_abbr := default "unknown" (BASIN_ABBREVIATIONS !! basin_name) in
  path_join folder_path (basin_abbr +:+ "_" +:+ year +:+ "_data.json").

(** [os.path.exists] *)
Definition path_exists (w : world) (p : string) : bool :=
  bool_decide (p ∈ dirs w) || bool_decide (is_Some (files w !! p)).

Section Pipeline.
Context `{Platform}.

(** Truth value of a Python value. *)
Definition truthy (v : value float) : bool :=
  match v with
  | VNone => false
  | VBool b => b
  | VInt n => negb (n =? 0)
  | VFloat x => negb (float_is_zero x)
  | VStr s => str_truthy s
  | VList l => match l with [] => false | _ => true end
  | VDict d => match d with [] => false | _ => true end
  end.

Definition opt_value {A} (f : A -> value float) (o : option A) : value float :=
  match o with Some a => f a | None => VNone end.

(** The dictionaries the builder makes, as Python values. *)
Definition point_value (p : TrackPoint) : value float :=
  VDict [ ("time", opt_value VStr (time p));
          ("lat", opt_value VFloat (lat p));
          ("long", opt_value VFloat (long p));
          ("speed", VStr (speed p));
          ("pressure", VStr (pressure p));
          ("class", VInt (class p)) ].

Definition track_value (t : StormTrack) : value float :=
  VDict ([ ("name", VStr (name t));
           ("path", VList (point_value <$> path t)) ]
         ++ match start_time t with
            | Some st => [ ("start_time", opt_value VInt st) ]
            | None => []
            end)%list.

Definition dataset_value (d : list StormTrack) : value float :=
  VList (track_value <$> d).

(** *** Dataset cache *)

Definition save_cache (data : value float) (year basin_name folder_path : string)
    : M unit := fun w =>
  let w1 := if path_exists w folder_path then w
            else mkWorld (files w) ({[ folder_path ]} ∪ dirs w) (requested w) in
  (Ok tt, mkWorld (<[cache_file year basin_name folder_path := json_dumps data]>
                     (files w1))
                  (dirs w1) (requested w1)).

Definition load_cache (year basin_name folder_path : string)
    : M (option (value float)) := fun w =>
  match files w !! cache_file year basin_name folder_path with
  | Some contents =>
      match json_loads contents with
      | Ok data => (Ok (Some data), w)
      | Raise _ => (Ok None, w)
      end
  | None => (Ok None, w)
  end.

(** *** Fetching and scraping *)

(** [requests.get(url)], recorded in the world. *)
Definition http_get (url : string) : M (Z * string) := fun w =>
  (requests_get url, mkWorld (files w) (dirs w) (url :: requested w)).

Definition fetch_year_page (year : string) : M (option string) :=
  response ← http_get (BASE_URL +:+ "?name=YearBasin-" +:+ year);
  if negb (response.1 =? 200) then mret None else mret (Some response.2).

(** [basin_links[basins[index]].append(url)] for each link of a cell. *)
Fixpoint add_links (basins : list string) (index_ : nat) (links : list Tag)
    (basin_links : gmap string (list string))
    : result (gmap string (list string)) :=
  match links with
  | [] => Ok basin_links
  | link :: links' =>
      basin ← index basins index_;
      add_links basins index_ links'
        (alter (fun l => l ++ [BASE_URL_ALT +:+ href link])%list basin basin_links)
  end.

(** [for index, cell in enumerate(cells)] *)
Fixpoint add_cells (basins : list string) (index_ : nat) (cells : list Tag)
    (basin_links : gmap string (list string))
    : result (gmap string (list string)) :=
  match cells with
  | [] => Ok basin_links
  | c :: cells' =>
      basin_links' ← add_links basins index_ (find_all AHref c) basin_links;
      add_cells basins (S index_) cells' basin_links'
  end.

(** [for row in rows] *)
Fixpoint add_rows (basins : list string) (rows : list Tag)
    (basin_links : gmap string (list string))
    : result (gmap string (list string)) :=
  match rows with
  | [] => Ok basin_links
  | row :: rows' =>
      basin_links' ← add_cells basins 0 (find_all Td row) basin_links;
      add_rows basins rows' basin_links'
  end.

Definition extract_links_from_second_table (html : option string)
    : result (option (gmap string (list string))) :=
  soup ← BeautifulSoup html;
  let tables := find_all LayoutTables soup in
  if (length tables <? 2)%nat then Ok None
  else
    table ← index tables 1;
    match find_all Tr table with
    | [] => Raise AttributeError          (* table.find('tr') is None *)
    | first_tr :: _ =>
        let headers := find_all Td first_tr in
        let basins := (fun header => strip (text header)) <$> headers in
        let basin_links : gmap string (list string) :=
          list_to_map ((fun basin => (basin, [])) <$> basins) in
        let rows := drop 1 (find_all Tr table) in
        Some <$> add_rows basins rows basin_links
    end.

Definition scrape_fourth_table (link : string)
    : M (option (list (list string))) :=
  response ← http_get link;
  if negb (response.1 =? 200) then mret None
  else
    soup ← lift (BeautifulSoup (Some response.2));
    let tables := find_all Tables soup in
    if (length tables <? 4)%nat then mret None
    else
      table ← lift (index tables 3);
      let rows := find_all Tr table in
      mret (Some ((fun row => (fun c => strip (text c)) <$> find_all TdTh row)
                    <$> drop 2 rows)).

Definition get_typhoon_name_from_link (link : string) : M (option string) :=
  response ← http_get link;
  if response.1 =? 200 then
    soup ← lift (BeautifulSoup (Some response.2));
    match find_all H1 soup with
    | name_element :: _ => mret (Some (get_text_strip name_element))
    | [] => mret None
    end
  else mret None.

(** *** The driver *)

(** The body of [for link in links_by_basin[basin_name]]: [None] when the
    storm is skipped by [continue]. *)
Definition scrape_storm (month : option month_arg) (link : string)
    : M (option StormTrack) :=
  typhoon_name ← get_typhoon_name_from_link link;
  if negb (cell_truthy typhoon_name) then mret None
  else
    let typhoon_name := working_name (default "" typhoon_name) in
    fourth_table_data ← scrape_fourth_table link;
    match fourth_table_data with
    | None | Some [] => mret None
    | Some table_data =>
        processed_data ← lift (add_missing_dates_and_empty_cells table_data);
        typhoon_data ← lift (build_track typhoon_name month processed_data);
        mret (Some typhoon_data)
    end.

Fixpoint scrape_storms (month : option month_arg) (links : list string)
    : M (list StormTrack) :=
  match links with
  | [] => mret []
  | link :: links' =>
      r ← scrape_storm month link;
      all_typhoon_data ← scrape_storms month links';
      mret (match r with
            | Some typhoon_data => typhoon_data :: all_typhoon_data
            | None => all_typhoon_data
            end)
  end.

Definition save_data_as_json (year basin_name : string)
    (month : option month_arg) (folder_path : string)
    : M (option (value float)) :=
  html ← fetch_year_page year;
  links_by_basin ← lift (extract_links_from_second_table html);
  match links_by_basin with
  | None => mret None
  | Some links_by_basin =>
      if bool_decide (links_by_basin = ∅) then mret None
      else match links_by_basin !! basin_name with
           | None => mret None
           | Some links =>
               all_typhoon_data ← scrape_storms month links;
               _ ← save_cache (dataset_value all_typhoon_data)
                     year basin_name folder_path;
               mret (Some (dataset_value all_typhoon_data))
           end
  end.

Definition scrape_typhoon_data (year basin_name : string)
    (month : option month_arg) (folder_path : string)
    : M (option (value float)) :=
  data ← load_cache year basin_name folder_path;
  match data with
  | Some d =>
      if truthy d then mret (Some d)
      else save_data_as_json year basin_name month folder_path
  | None => save_data_as_json year basin_name month folder_path
  end.

End Pipeline.

(** ** The entry point: the [__main__] block *)

Section Main.
Context `{Platform}.

(** [len(v)] *)
Definition py_len (v : value float) : result Z :=
  match v with
  | VStr s => Ok (Z.of_nat (String.length s))
  | VList l => Ok (Z.of_nat (length l))
  | VDict d => Ok (Z.of_nat (length d))
  | VNone | VBool _ | VInt _ | VFloat _ => Raise TypeError
  end.

(** The block under [if __name__ == "__main__"], from the three lines
    read at the prompts to the line printed last. *)
Definition main (year_in month_in basin_in : string) : M string :=
  let year := strip year_in in
  let month := if str_truthy (strip month_in)
               then Some (MonthStr (strip month_in)) else None in
  let basin := strip basin_in in
  data ← scrape_typhoon_data year basin month "data";
  match data with
  | Some d =>
      if truthy d
      then n ← lift (py_len d);
           mret ("Fetched and cached " +:+ str_of_int n +:+ " typhoons.")
      else mret "No data available."
  | None => mret "No data available."
  end.

End Main.

(** * Vocabulary of the properties, and sample data *)

(** The cell of row [j] and column [c] of a matrix. *)
Definition cell_at {A} (m : list (list A)) (j c : nat) : option A :=
  row ← m !! j; row !! c.

(** The row before row [j] in the loop: [last_row] when row [j] is
    reached. *)
Definition row_before (lr : option (list cell)) (out : list (list cell))
    (j : nat) : option (list cell) :=
  match j with
  | O => lr
  | S j' => out !! j'
  end.

(** What the fill leaves in a non-empty cell: null for the marker, the
    text itself otherwise. *)
Definition settled (x : string) : cell :=
  if String.eqb x NA then None else Some x.

(** C1 as the specification states it, for a matrix [data] and its
    normal form [out]: in every column, an explicit value is carried through
    the empty cells of the next rows; and a marker becomes null, and no
    later row has a null there unless it holds the marker itself. *)
Definition stated_carry_forward (data : list (list string))
    (out : list (list cell)) : Prop :=
  forall j k c x,
    cell_at data j c = Some x -> x <> "" -> x <> NA ->
    (forall i, (j < i <= j + k)%nat -> cell_at data i c = Some "") ->
    forall i, (j <= i <= j + k)%nat -> cell_at out i c = Some (Some x).

Definition stated_marker_terminal (data : list (list string))
    (out : list (list cell)) : Prop :=
  forall j c,
    cell_at data j c = Some NA ->
    cell_at out j c = Some None
    /\ forall i, (j < i)%nat -> cell_at data i c <> Some NA ->
         cell_at out i c <> Some None.

(** A matrix on which the carry-forward can be followed: a value, two
    gaps, the marker, a gap, and a new value, in column 2; and an empty
    datetime cell in row 3. *)
Definition sample_rows : list (list string) :=
  [ ["0"; "2020-01-01 00:00:00"; "5"];
    ["1"; "06:00:00"; ""];
    ["2"; "2020-01-01 12:00:00"; ""];
    ["3"; ""; "N / A"];
    ["4"; "2020-01-02 00:00:00"; ""];
    ["5"; "06:00:00"; "7"] ].

Definition sample_rows_normalized : list (list cell) :=
  [ [Some "0"; Some "2020-01-01 00:00:00"; Some "5"];
    [Some "1"; Some "2020-01-01 06:00:00"; Some "5"];
    [Some "2"; Some "2020-01-01 12:00:00"; Some "5"];
    [Some "3"; Some "2020-01-01 "; None];
    [Some "4"; Some "2020-01-02 00:00:00"; None];
    [Some "5"; Some "2020-01-02 06:00:00"; Some "7"] ].






(** The bands of the intensity classes, as the specification lists them:
    [c] is the class of the speed [n]. *)
Definition in_band (n c : Z) : Prop :=
  (n < 34 /\ c = 0) \/ (34 <= n <= 63 /\ c = 1) \/ (64 <= n <= 82 /\ c = 2)
  \/ (83 <= n <= 95 /\ c = 3) \/ (96 <= n <= 112 /\ c = 4)
  \/ (113 <= n /\ c = 5).

(** [k] is the class the specification derives from the wind speed cell
    [c]: by the bands from its integer value when the cell holds a text,
    0 when the cell is null, empty or the marker. *)
Definition speed_class (c : cell) (k : Z) : Prop :=
  match unmark c with
  | Some s => if str_truthy s
              then exists n, py_int s = Ok n /\ in_band n k
              else k = 0
  | None => k = 0
  end.

(** What the builder stores for the speed cell [c] (after [unmark]): the
    text [s] and the class [k]. *)
Definition speed_stored (c : cell) (s : string) (k : Z) : Prop :=
  match c with
  | Some t =>
      if str_truthy t
      then exists n, py_int t = Ok n
             /\ s = (if negb (n =? 0) then str_of_int n else "< 35")
             /\ k = typhoon_class_of n
      else s = "< 35" /\ k = 0
  | None => s = "< 35" /\ k = 0
  end.

(** What the builder stores for the pressure cell [c]. *)
Definition pressure_stored (c : cell) : string :=
  match unmark c with
  | Some q => if str_truthy q then q else "> 1008"
  | None => "> 1008"
  end.

(** ** A sample platform

    A small instance of the collaborators, on which the script can be run:
    documents are trees, the body of a page is its own URL, floats are
    kept as their decimal literal, and local time is UTC. *)

#[warnings="-register-all"]
Inductive dom : Type :=
  | Elem (tag : string) (attrs : list (string * string)) (kids : list dom)
  | Txt (s : string).

Fixpoint assoc {A} (k : string) (l : list (string * A)) : option A :=
  match l with
  | [] => None
  | (k', v) :: l' => if String.eqb k k' then Some v else assoc k l'
  end.

(** The tags below a node, in document order. *)
Fixpoint descendants (d : dom) : list dom :=
  match d with
  | Elem _ _ kids =>
      (fix go (ks : list dom) : list dom :=
         match ks with
         | [] => []
         | k :: ks' => (k :: descendants k ++ go ks')%list
         end) kids
  | Txt _ => []
  end.

Definition dom_attr (k : string) (d : dom) : option string :=
  match d with
  | Elem _ attrs _ => assoc k attrs
  | Txt _ => None
  end.

Definition dom_tag (d : dom) : string :=
  match d with
  | Elem t _ _ => t
  | Txt _ => ""
  end.

Definition dom_matches (sel : selector) (d : dom) : bool :=
  match sel with
  | LayoutTables =>
      String.eqb (dom_tag d) "table"
      && bool_decide (dom_attr "class" d = Some "ishade")
      && bool_decide (dom_attr "summary" d = Some "Layout table.")
  | Tables => String.eqb (dom_tag d) "table"
  | Tr => String.eqb (dom_tag d) "tr"
  | Td => String.eqb (dom_tag d) "td"
  | TdTh => String.eqb (dom_tag d) "td" || String.eqb (dom_tag d) "th"
  | AHref => String.eqb (dom_tag d) "a" && bool_decide (is_Some (dom_attr "href" d))
  | H1 => String.eqb (dom_tag d) "h1"
  end.

Definition dom_find_all (sel : selector) (d : dom) : list dom :=
  List.filter (dom_matches sel) (descendants d).

(** The texts below a node, each passed through [f], joined. *)
Fixpoint dom_texts (f : string -> string) (d : dom) : string :=
  match d with
  | Elem _ _ kids =>
      (fix go (ks : list dom) : string :=
         match ks with
         | [] => ""
         | k :: ks' => dom_texts f k +:+ go ks'
         end) kids
  | Txt s => f s
  end.

(** A decimal literal: an optional sign, digits, and an optional
    fraction. *)
Fixpoint all_digits (s : string) : bool :=
  match s with
  | EmptyString => true
  | String c s' => bool_decide (is_Some (digit_of c)) && all_digits s'
  end.

Fixpoint is_decimal_from (seen_digit seen_dot : bool) (s : string) : bool :=
  match s with
  | EmptyString => seen_digit
  | String c s' =>
      if bool_decide (is_Some (digit_of c)) then is_decimal_from true seen_dot s'
      else if Ascii.eqb c "." && negb seen_dot && seen_digit
           then str_truthy s' && all_digits s'
           else false
  end.

Definition is_decimal (s : string) : bool :=
  match s with
  | String "-" s' | String "+" s' => is_decimal_from false false s'
  | _ => is_decimal_from false false s
  end.

Definition sample_float (s : string) : result string :=
  if is_decimal (strip s) then Ok (strip s) else Raise ValueError.

(** Table rows as [tr] of [td]. *)
Definition tr_of (cells : list string) : dom :=
  Elem "tr" [] ((fun c => Elem "td" [] [Txt c]) <$> cells).

Definition table_of (rows : list (list string)) : dom :=
  Elem "table" [] (tr_of <$> rows).

(** A storm page: the heading, and the track as the fourth table, under
    two header rows. *)
Definition storm_page (heading : string) (track : list (list string)) : dom :=
  Elem "html" []
    [ Elem "h1" [] [Txt heading];
      table_of []; table_of []; table_of [];
      table_of (["Position history"] :: ["#"; "Time"; "Nature"; "Lat"; "Lon"; "Wind"; "Pres"]
                :: track) ].

(** A year page: two layout tables, the second with one column per basin
    and one row of links. *)
Definition layout_table (kids : list dom) : dom :=
  Elem "table" [("class", "ishade"); ("summary", "Layout table.")] kids.

Definition year_page (basins : list (string * list string)) : dom :=
  Elem "html" []
    [ layout_table [];
      layout_table
        [ tr_of (fst <$> basins);
          Elem "tr" []
            ((fun b => Elem "td" []
                ((fun h => Elem "a" [("href", h)] [Txt h]) <$> snd b))
             <$> basins) ] ].

Definition maysak_rows : list (list string) :=
  [ ["0"; "2020-05-31 18:00:00"; "TS"; "12.5"; "130.1"; "30"; "1002"];
    ["1"; "2020-06-01 00:00:00"; ""; "13.0"; "129.5"; "64"; "985"];
    ["2"; "06:00:00"; ""; "13.4"; "129.0"; ""; ""] ].

Definition haishen_rows : list (list string) :=
  [ ["0"; "2020-05-10 00:00:00"; "TS"; "20.0"; "140.0"; "35"; "1000"];
    ["1"; "06:00:00"; ""; "20.5"; "139.5"; "113"; "N / A"] ].

(** The wind speed of the second row is not a number. *)
Definition noul_rows : list (list string) :=
  [ ["0"; "2021-09-15 00:00:00"; "TS"; "15.0"; "115.0"; "35"; "1000"];
    ["1"; "06:00:00"; ""; "15.5"; "114.0"; "< 35"; "1004"] ].

(** The datetime cell of the first row is empty. *)
Definition dolphin_rows : list (list string) :=
  [ ["0"; ""; "TS"; "25.0"; "135.0"; "35"; "1000"];
    ["1"; "2022-09-21 06:00:00"; ""; "25.5"; "135.5"; "40"; "998"] ].

Definition year_url (year : string) : string :=
  BASE_URL +:+ "?name=YearBasin-" +:+ year.

Definition sample_site : list (string * dom) :=
  [ (year_url "2020",
     year_page [("Western Pacific", ["maysak"; "haishen"]); ("Northern Atlantic", [])]);
    (year_url "2021", year_page [("Western Pacific", ["noul"])]);
    (year_url "2022", year_page [("Western Pacific", ["dolphin"])]);
    (BASE_URL_ALT +:+ "maysak", storm_page " Typhoon MAYSAK 2020 " maysak_rows);
    (BASE_URL_ALT +:+ "haishen", storm_page "Typhoon HAISHEN 2020" haishen_rows);
    (BASE_URL_ALT +:+ "noul", storm_page "Storm NOUL 2021" noul_rows);
    (BASE_URL_ALT +:+ "dolphin", storm_page "Storm DOLPHIN 2022" dolphin_rows) ].

(** The dataset of 2020 in the Western Pacific under the filter of June,
    as a Python value, and the text [json] writes for it. *)
Definition june_value : value string :=
  VList
    [ VDict [ ("name", VStr "MAYSAK");
              ("path",
               VList [ VDict [ ("time", VStr "2020-06-01 00:00");
                               ("lat", VFloat "13.0"); ("long", VFloat "129.5");
                               ("speed", VStr "64"); ("pressure", VStr "985");
                               ("class", VInt 2) ];
                       VDict [ ("time", VStr "2020-06-01 06:00");
                               ("lat", VFloat "13.4"); ("long", VFloat "129.0");
                               ("speed", VStr "64"); ("pressure", VStr "985");
                               ("class", VInt 2) ] ]);
              ("start_time", VInt 1590948000) ];
      VDict [ ("name", VStr "HAISHEN"); ("path", VList []);
              ("start_time", VInt 1589068800) ] ].

(** A compact rendering of a value as JSON text (strings are written
    without escapes). *)
Fixpoint print_value (v : value string) : string :=
  match v with
  | VNone => "null"
  | VBool b => if b then "true" else "false"
  | VInt n => str_of_int n
  | VFloat x => x
  | VStr s => String (ascii_of_nat 34) s +:+ String (ascii_of_nat 34) ""
  | VList l =>
      "[" +:+ (fix go (l : list (value string)) : string :=
                 match l with
                 | [] => ""
                 | [x] => print_value x
                 | x :: l' => print_value x +:+ ", " +:+ go l'
                 end) l +:+ "]"
  | VDict d =>
      "{" +:+ (fix go (d : list (string * value string)) : string :=
                 match d with
                 | [] => ""
                 | [(k, x)] =>
                     String (ascii_of_nat 34) k +:+ String (ascii_of_nat 34) ": "
                     +:+ print_value x
                 | (k, x) :: d' =>
                     String (ascii_of_nat 34) k +:+ String (ascii_of_nat 34) ": "
                     +:+ print_value x +:+ ", " +:+ go d'
                 end) d +:+ "}"
  end.

(** [json.load] on the texts that occur here: the empty list and the
    dataset above; any other text, such as a file cut short, does not
    decode. *)
Definition sample_loads (s : string) : result (value string) :=
  if String.eqb s "[]" then Ok (VList [])
  else if String.eqb s (print_value june_value) then Ok june_value
  else Raise ValueError.

Definition sample_platform : Platform :=
  {| float := string;
     py_float := sample_float;
     float_is_zero := fun _ => false;
     utcoffset := fun _ => 0;
     json_dumps := print_value;
     json_loads := sample_loads;
     requests_get := fun url =>
       Ok (match assoc url sample_site with
           | Some _ => (200, url)
           | None => (404, "")
           end);
     Tag := dom;
     BeautifulSoup := fun markup =>
       match markup with
       | Some body => Ok (default (Elem "html" [] []) (assoc body sample_site))
       | None => Raise TypeError
       end;
     find_all := dom_find_all;
     text := dom_texts id;
     get_text_strip := dom_texts strip;
     href := fun d => default "" (dom_attr "href" d) |}.

(** A world with no file and no request made. *)
Definition empty_world : world := mkWorld ∅ ∅ [].


(** The page of the storm HAISHEN, whose rows are all of May, and what the
    script makes of it under the filter of June. *)
Definition haishen_link : string := BASE_URL_ALT +:+ "haishen".

Definition haishen_first : list cell :=
  [Some "0"; Some "2020-05-10 00:00:00"; Some "TS"; Some "20.0";
   Some "140.0"; Some "35"; Some "1000"].

Definition haishen_second : list cell :=
  [Some "1"; Some "2020-05-10 06:00:00"; Some "TS"; Some "20.5";
   Some "139.5"; Some "113"; None].

Definition haishen_processed : list (list cell) :=
  [haishen_first; haishen_second].

Definition haishen_track : @StormTrack sample_platform :=
  mkStormTrack "HAISHEN" [] (Some (Some 1589068800)).

Definition june : option month_arg := Some (MonthStr "6").


(** The world after the given requests, with no file. *)
Definition after_requests (urls : list string) : world := mkWorld ∅ ∅ urls.

(** What the normaliser makes of the rows of DOLPHIN: the empty datetime
    cell of the first row becomes null. *)
Definition dolphin_processed : list (list cell) :=
  [ [Some "0"; None; Some "TS"; Some "25.0"; Some "135.0"; Some "35";
     Some "1000"];
    [Some "1"; Some "2022-09-21 06:00:00"; Some "TS"; Some "25.5";
     Some "135.5"; Some "40"; Some "998"] ].

(** A row whose wind speed and pressure cells both hold the text 0. *)
Definition calm_row : list cell :=
  [Some "0"; Some "2020-06-01 00:00:00"; Some "TS"; Some "12.5";
   Some "130.1"; Some "0"; Some "0"].

(** A row at hurricane strength, and a row whose datetime cell is a bare
    time. *)
Definition hurricane_row : list cell :=
  [Some "1"; Some "2020-06-01 00:00:00"; Some "TS"; Some "13.0";
   Some "129.5"; Some "64"; Some "985"].

Definition hurricane_point : @TrackPoint sample_platform :=
  @mkTrackPoint sample_platform (Some "2020-06-01 00:00") (Some "13.0")
    (Some "129.5") "64" "985" 2.

Definition bare_row : list cell :=
  [Some "0"; Some "06:00:00"; Some "TS"; Some "12.5"; Some "130.1";
   Some "25"; None].

Definition bare_point : @TrackPoint sample_platform :=
  @mkTrackPoint sample_platform (Some "06:00:00") (Some "12.5")
    (Some "130.1") "25" "> 1008" 0.

Definition calm_point : @TrackPoint sample_platform :=
  @mkTrackPoint sample_platform (Some "2020-06-01 00:00") (Some "12.5")
    (Some "130.1") "< 35" "0" 0.

Section Vocabulary.
Context `{Platform}.

(** The dataset the cache offers in the world [w]: the value the cache
    file decodes to, when the file exists, decodes, and the value is
    true. *)
Definition cache_hit (w : world) (year basin_name folder_path : string)
    : option (value float) :=
  match files w !! cache_file year basin_name folder_path with
  | Some contents =>
      match json_loads contents with
      | Ok d => if truthy d then Some d else None
      | Raise _ => None
      end
  | None => None
  end.


(** A computation that reads nothing of the world but the requests made,
    and only adds to them. *)
Definition web_only {A} (m : M A) : Prop :=
  forall w,
    (exists l, requested (m w).2 = (l ++ requested w)%list)
    /\ forall w', requested w' = requested w ->
          (m w').1 = (m w).1 /\ requested (m w').2 = requested (m w).2.

(** What [save_data_as_json] does with the year page. *)
Definition after_year_page (year basin_name : string)
    (month : option month_arg) (folder_path : string)
    (html : option string) : M (option (value float)) :=
  links_by_basin ← lift (extract_links_from_second_table html);
  match links_by_basin with
  | None => mret None
  | Some links_by_basin =>
      if bool_decide (links_by_basin = ∅) then mret None
      else match links_by_basin !! basin_name with
           | None => mret None
           | Some links =>
               all_typhoon_data ← scrape_storms month links;
               _ ← save_cache (dataset_value all_typhoon_data)
                     year basin_name folder_path;
               mret (Some (dataset_value all_typhoon_data))
           end
  end.



End Vocabulary.

(** ** Vocabulary of the further properties *)

(** What the normaliser leaves in a cell of the first row. *)
Definition first_row_cell (c : string) : cell :=
  if str_truthy c then settled c else None.

(** A text that does not start with whitespace. *)
Definition no_leading_space (s : string) : Prop := lstrip s = s.

(** A row the datetime step accepts: a datetime cell with a space holds a
    token. *)
Definition datetime_splits (row : list string) : Prop :=
  forall x, row !! 1%nat = Some x -> contains_space x = true -> split x <> [].

Section BuilderVocabulary.
Context `{Platform}.

(** The point [p] is what the builder makes of the row [row], with some
    text or null as its time. *)
Definition made_from (row : list cell) (p : TrackPoint) : Prop :=
  exists t, make_point t row = Ok p.


End BuilderVocabulary.

(** A computation that leaves the files and the directories as they
    are. *)
Definition keeps_files {A} (m : M A) : Prop :=
  forall w, files (m w).2 = files w /\ dirs (m w).2 = dirs w.

(** A URL under the base of the storm pages. *)
Definition absolute (u : string) : Prop := exists h, u = BASE_URL_ALT +:+ h.

(** The link map of the year page of 2021 on the sample site. *)
Definition links_2021 : gmap string (list string) :=
  {[ "Western Pacific" := [BASE_URL_ALT +:+ "noul"] ]}.

(** * Properties *)

(** ** Reasoning about results *)

Lemma bind_Ok {A B} (m : result A) (f : A -> result B) (b : B) :
  m ≫= f = Ok b -> exists a, m = Ok a /\ f a = Ok b.
Proof. destruct m as [a|e]; simpl; [eauto | discriminate]. Qed.

Lemma fmap_Ok {A B} (m : result A) (f : A -> B) (b : B) :
  f <$> m = Ok b -> exists a, m = Ok a /\ b = f a.
Proof. destruct m as [a|e]; simpl; [|discriminate]. intros [= <-]. eauto. Qed.

Lemma bind_ret {A B} (a : A) (f : A -> result B) : Ok a ≫= f = f a.
Proof. done. Qed.

Lemma bind_id {A} (m : result A) : m ≫= Ok = m.
Proof. by destruct m. Qed.

Lemma index_Ok {A} (l : list A) (i : nat) (x : A) :
  index l i = Ok x <-> l !! i = Some x.
Proof. unfold index. destruct (l !! i); split; congruence. Qed.

(** Inverts a hypothesis saying that a bind returned. *)
Ltac bind_inv H a Ha := apply bind_Ok in H as (a & Ha & H).

(** ** Row normaliser *)

Lemma str_truthy_false (s : string) : str_truthy s = false <-> s = "".
Proof. unfold str_truthy. destruct (String.eqb_spec s ""); naive_solver. Qed.

Lemma fill_cells_lookup lr i row out :
  fill_cells lr i row = Ok out ->
  forall n x, row !! n = Some x ->
  exists v, out !! n = Some v /\ fill_cell lr (i + n) x = Ok v.
Proof.
  revert i out. induction row as [|c row IH]; intros i out Hf n x Hn; [done|].
  simpl in Hf. bind_inv Hf v Hv. bind_inv Hf vs Hvs. injection Hf as <-.
  destruct n as [|n]; simpl in Hn.
  - injection Hn as ->. exists v. by rewrite Nat.add_0_r.
  - destruct (IH _ _ Hvs _ _ Hn) as (v' & ? & ?). exists v'.
    by rewrite Nat.add_succ_r.
Qed.

Lemma fill_cells_length lr i row out :
  fill_cells lr i row = Ok out -> length out = length row.
Proof.
  revert i out. induction row as [|c row IH]; intros i out Hf; simpl in Hf.
  - by injection Hf as <-.
  - bind_inv Hf v Hv. bind_inv Hf vs Hvs. injection Hf as <-.
    simpl. f_equal. eauto.
Qed.

(** The datetime step touches no other column. *)
Lemma fix_datetime_other ld row ld' row1 c :
  fix_datetime ld row = Ok (ld', row1) -> c <> 1%nat -> row1 !! c = row !! c.
Proof.
  unfold fix_datetime. intros Hf Hc. bind_inv Hf x Hx.
  destruct (contains_space x).
  - bind_inv Hf d Hd. by injection Hf as _ <-.
  - destruct ld as [d|]; [destruct (str_truthy d)|];
      injection Hf as _ <-; by rewrite list_lookup_insert_ne.
Qed.

(** Every row of the result is the fill of its raw row, after the datetime
    step, against the row before it. *)
Lemma normalize_rows_lookup ld lr data out :
  normalize_rows ld lr data = Ok out ->
  forall j row, data !! j = Some row ->
  exists ld_j ld_j' row1 orow,
    out !! j = Some orow
    /\ fix_datetime ld_j row = Ok (ld_j', row1)
    /\ fill_cells (row_before lr out j) 0 row1 = Ok orow.
Proof.
  revert ld lr out.
  induction data as [|r data IH]; intros ld lr out Hn j row Hj; [done|].
  simpl in Hn. bind_inv Hn p Hp. destruct p as [ld' row1].
  bind_inv Hn row2 Hrow2. bind_inv Hn rest Hrest. injection Hn as <-.
  destruct j as [|j]; simpl in Hj.
  - injection Hj as ->. by exists ld, ld', row1, row2.
  - destruct (IH _ _ _ Hrest _ _ Hj) as (ld_j & ld_j' & r1 & orow & Ho & Hf & Hc).
    exists ld_j, ld_j', r1, orow. split_and!; [done..|].
    by destruct j.
Qed.

Lemma normalize_rows_length ld lr data out :
  normalize_rows ld lr data = Ok out -> length out = length data.
Proof.
  revert ld lr out. induction data as [|r data IH]; intros ld lr out Hn;
    simpl in Hn.
  - by injection Hn as <-.
  - bind_inv Hn p Hp. destruct p as [ld' row1].
    bind_inv Hn row2 Hrow2. bind_inv Hn rest Hrest. injection Hn as <-.
    simpl. f_equal. eauto.
Qed.

(** Each cell outside the datetime column is the fill of its raw cell
    against the row before it. *)
Lemma normalize_rows_cell ld lr data out j c x :
  normalize_rows ld lr data = Ok out ->
  c <> 1%nat ->
  cell_at data j c = Some x ->
  exists v, cell_at out j c = Some v
            /\ fill_cell (row_before lr out j) c x = Ok v.
Proof.
  intros Hn Hc Hx. unfold cell_at in *.
  destruct (data !! j) as [row|] eqn:Hrow; [simpl in Hx | done].
  destruct (normalize_rows_lookup _ _ _ _ Hn _ _ Hrow)
    as (ld_j & ld_j' & row1 & orow & Ho & Hf & Hfill).
  rewrite <- (fix_datetime_other _ _ _ _ _ Hf Hc) in Hx.
  destruct (fill_cells_lookup _ _ _ _ Hfill _ _ Hx) as (v & Hv & Hcell).
  exists v. rewrite Ho. by split.
Qed.

Lemma fill_cell_nonempty lr i x :
  x <> "" -> fill_cell lr i x = Ok (settled x).
Proof.
  intros Hx. unfold fill_cell, settled.
  destruct (String.eqb x NA); [done|].
  destruct (str_truthy x) eqn:E; [done|]. by apply str_truthy_false in E.
Qed.

Lemma fill_cell_empty prev i v :
  prev !! i = Some v -> fill_cell (Some prev) i "" = Ok v.
Proof.
  intros Hv. unfold fill_cell. simpl.
  destruct prev as [|p prev]; [done|]. by apply index_Ok.
Qed.

Lemma mark_empty_lookup row c x :
  row !! c = Some x ->
  mark_empty row !! c = Some (if str_truthy x then x else NA).
Proof. intros Hx. unfold mark_empty. by rewrite list_lookup_fmap, Hx. Qed.

Lemma rows_carry_forward lr ld data out j k c x :
  normalize_rows ld lr data = Ok out ->
  c <> 1%nat ->
  cell_at data j c = Some x -> x <> "" ->
  (forall i, (j < i <= j + k)%nat -> cell_at data i c = Some "") ->
  forall i, (j <= i <= j + k)%nat -> cell_at out i c = Some (settled x).
Proof.
  intros Hn Hc Hx Hne Hempty i [Hji Hik].
  assert (exists d, i = (j + d)%nat) as [d ->] by (exists (i - j)%nat; lia).
  clear Hji. induction d as [|d IH].
  - rewrite Nat.add_0_r.
    destruct (normalize_rows_cell _ _ _ _ _ _ _ Hn Hc Hx) as (v & Hv & Hfill).
    rewrite fill_cell_nonempty in Hfill by done. by injection Hfill as <-.
  - specialize (IH ltac:(lia)).
    assert (cell_at data (j + S d) c = Some "") as He by (apply Hempty; lia).
    destruct (normalize_rows_cell _ _ _ _ _ _ _ Hn Hc He) as (v & Hv & Hfill).
    rewrite Nat.add_succ_r in Hfill. simpl in Hfill.
    unfold cell_at in IH.
    destruct (out !! (j + d)%nat) as [prev|]; [simpl in IH | done].
    rewrite (fill_cell_empty _ _ _ IH) in Hfill. by injection Hfill as <-.
Qed.

Lemma cell_at_marked row0 data j c x :
  cell_at (row0 :: data) j c = Some x ->
  cell_at (mark_empty row0 :: data) j c
  = Some (match j with
          | O => if str_truthy x then x else NA
          | S _ => x
          end).
Proof.
  destruct j as [|j]; [|done]. unfold cell_at. simpl.
  apply mark_empty_lookup.
Qed.

(** C1 (as amended).  In every column other than the datetime column, a
    non-empty cell followed by empty cells in the next rows settles all of
    them: an explicit value is carried forward through the gaps, and the
    "N / A" marker becomes null, whatever the rows before it hold, and the
    gaps after it inherit that null. *)
Theorem carry_forward data out j k c x :
  add_missing_dates_and_empty_cells data = Ok out ->
  c <> 1%nat ->
  cell_at data j c = Some x -> x <> "" ->
  (forall i, (j < i <= j + k)%nat -> cell_at data i c = Some "") ->
  forall i, (j <= i <= j + k)%nat -> cell_at out i c = Some (settled x).
Proof.
  intros Hn Hc Hx Hne Hempty.
  destruct data as [|row0 data]; [done|].
  unfold add_missing_dates_and_empty_cells in Hn.
  apply (rows_carry_forward _ _ _ _ _ _ _ _ Hn Hc); [|done|].
  - rewrite (cell_at_marked _ _ _ _ _ Hx). destruct j; [|done].
    destruct (str_truthy x) eqn:E; [done|]. by apply str_truthy_false in E.
  - intros i Hi. specialize (Hempty i Hi).
    rewrite (cell_at_marked _ _ _ _ _ Hempty). destruct i; [lia | done].
Qed.

Lemma carry_forward_witness :
  add_missing_dates_and_empty_cells sample_rows = Ok sample_rows_normalized
  /\ cell_at sample_rows 0 2 = Some "5"
  /\ (forall i, (0 < i <= 0 + 2)%nat -> cell_at sample_rows i 2 = Some "")
  /\ cell_at sample_rows_normalized 2 2 = Some (Some "5").
Proof.
  assert (forall i, (0 < i <= 0 + 2)%nat -> cell_at sample_rows i 2 = Some "")
    as Hgap.
  { intros [|[|[|i]]] Hi; solve [reflexivity | exfalso; lia]. }
  split_and!; [reflexivity | reflexivity | exact Hgap |].
  apply (carry_forward sample_rows sample_rows_normalized 0 2 2 "5");
    [reflexivity | discriminate | reflexivity | discriminate | exact Hgap | lia].
Defined.

(** C1, as it is stated, fails on [sample_rows]: the empty cell of row 4,
    column 2, inherits the null that the marker of row 3 became; and the
    empty datetime cell of row 3 does not take the explicit datetime of row
    2, it becomes the running date followed by a space. *)
Lemma carry_forward_counterexample :
  add_missing_dates_and_empty_cells sample_rows = Ok sample_rows_normalized
  /\ ~ stated_marker_terminal sample_rows sample_rows_normalized
  /\ ~ stated_carry_forward sample_rows sample_rows_normalized.
Proof.
  split_and!; [done| |].
  - intros Hstated.
    destruct (Hstated 3%nat 2%nat eq_refl) as [_ Hlater].
    by apply (Hlater 4%nat ltac:(lia)).
  - intros Hstated.
    assert (cell_at sample_rows_normalized 3 1
            = Some (Some "2020-01-01 12:00:00")) as Hcell; [|done].
    apply (Hstated 2%nat 1%nat 1%nat "2020-01-01 12:00:00"); [done..| |lia].
    intros i Hi. by replace i with 3%nat by lia.
Qed.

(** *** The datetime column *)

Lemma contains_space_app (a b : string) :
  contains_space (a +:+ b) = contains_space a || contains_space b.
Proof.
  induction a as [|c a IH]; simpl; [done|]. rewrite IH. by rewrite orb_assoc.
Qed.

Lemma contains_space_nonempty (s : string) :
  contains_space s = true -> s <> "".
Proof. by destruct s. Qed.

(** The tokens of [split] are non-empty. *)
Lemma split_from_truthy cur s t :
  t ∈ split_from cur s -> str_truthy t = true.
Proof.
  revert cur. induction s as [|c s IH]; intros cur; simpl.
  - unfold str_truthy. destruct (String.eqb cur "") eqn:E.
    + by intros ?%elem_of_nil.
    + intros ->%list_elem_of_singleton. by rewrite E.
  - destruct (isspace c); [|by apply IH].
    destruct (String.eqb cur "") eqn:E; [by apply IH|].
    intros [->|?]%elem_of_cons; [|by eapply IH].
    unfold str_truthy. by rewrite E.
Qed.

(** The two outcomes of the datetime step. *)
Lemma fix_datetime_inv ld row ld' row1 :
  fix_datetime ld row = Ok (ld', row1) ->
  exists x, row !! 1%nat = Some x
    /\ ((contains_space x = true /\ row1 = row
         /\ exists d, ld' = Some d /\ str_truthy d = true)
        \/ (contains_space x = false /\ ld' = ld
            /\ row1 = <[1%nat :=
                 match ld with
                 | Some d => if str_truthy d then d +:+ " " +:+ x else x
                 | None => x
                 end]> row)).
Proof.
  unfold fix_datetime. intros Hf. bind_inv Hf x Hx.
  apply index_Ok in Hx. exists x. split; [done|].
  destruct (contains_space x).
  - left. bind_inv Hf d Hd. injection Hf as <- <-. split_and!; [done..|].
    exists d. split; [done|]. apply index_Ok in Hd.
    eapply split_from_truthy, list_elem_of_lookup_2, Hd.
  - right. destruct ld as [d|]; [destruct (str_truthy d)|];
      by injection Hf as <- <-.
Qed.






(** ** Track record builder *)

Lemma typhoon_class_bands (n : Z) : in_band n (typhoon_class_of n).
Proof.
  unfold in_band, typhoon_class_of.
  repeat match goal with
  | |- context [if ?b then _ else _] => destruct b eqn:?
  end; lia.
Qed.

Lemma in_band_range (n c : Z) : in_band n c -> 0 <= c <= 5.
Proof. unfold in_band. lia. Qed.

Lemma in_band_functional (n c c' : Z) : in_band n c -> in_band n c' -> c = c'.
Proof. unfold in_band. lia. Qed.

Section BuilderProperties.
Context `{Platform}.

Lemma make_point_inv time0 row p :
  make_point time0 row = Ok p ->
  exists c5 c6,
    row !! 5%nat = Some c5 /\ row !! 6%nat = Some c6
    /\ time p = time0
    /\ pressure p = pressure_stored c6
    /\ speed_stored (unmark c5) (speed p) (class p).
Proof.
  unfold make_point. intros Hp.
  bind_inv Hp lat0 Hlat. bind_inv Hp long0 Hlong.
  bind_inv Hp speed0 Hspeed. bind_inv Hp pressure0 Hpressure.
  bind_inv Hp stored Hsc. destruct stored as [speed_str typhoon_class].
  bind_inv Hp lat_f Hlat_f. bind_inv Hp long_f Hlong_f.
  injection Hp as <-. simpl.
  apply fmap_Ok in Hspeed as (c5 & Hc5%index_Ok & ->).
  apply fmap_Ok in Hpressure as (c6 & Hc6%index_Ok & ->).
  exists c5, c6. split_and!; [done..|].
  unfold speed_stored. destruct (unmark c5) as [t|].
  - destruct (str_truthy t).
    + bind_inv Hsc n Hn. injection Hsc as <- <-. by exists n.
    + by injection Hsc as <- <-.
  - by injection Hsc as <- <-.
Qed.

Lemma convert_row_inv month row p :
  convert_row month row = Ok (Some p) ->
  exists c t, row !! 1%nat = Some c /\ filter_time month c = Some t
              /\ make_point t row = Ok p.
Proof.
  unfold convert_row. intros Hc. bind_inv Hc c Hrow. apply index_Ok in Hrow.
  destruct (filter_time month c) as [t|] eqn:Ht; [|done].
  bind_inv Hc p' Hp'. injection Hc as ->. by exists c, t.
Qed.

Lemma speed_stored_class c s k : speed_stored (unmark c) s k -> speed_class c k.
Proof.
  unfold speed_stored, speed_class. destruct (unmark c) as [t|]; [|by intros [_ ->]].
  destruct (str_truthy t); [|by intros [_ ->]].
  intros (n & Hn & _ & ->). exists n. split; [done|]. apply typhoon_class_bands.
Qed.

Lemma speed_class_range c k : speed_class c k -> 0 <= k <= 5.
Proof.
  unfold speed_class. destruct (unmark c) as [t|]; [|lia].
  destruct (str_truthy t); [|lia]. intros (n & _ & Hn). by eapply in_band_range.
Qed.

Lemma speed_class_functional c k k' :
  speed_class c k -> speed_class c k' -> k = k'.
Proof.
  unfold speed_class. destruct (unmark c) as [t|]; [|congruence].
  destruct (str_truthy t); [|congruence].
  intros (n & Hn & Hk) (n' & Hn' & Hk'). rewrite Hn in Hn'.
  injection Hn' as <-. by eapply in_band_functional.
Qed.

Lemma convert_row_class month row p :
  convert_row month row = Ok (Some p) ->
  exists c, row !! 5%nat = Some c /\ speed_class c (class p).
Proof.
  intros (c1 & t & _ & _ & Hp)%convert_row_inv.
  apply make_point_inv in Hp as (c5 & c6 & Hc5 & _ & _ & _ & Hs).
  exists c5. split; [done|]. by eapply speed_stored_class.
Qed.

(** C2.  The class of a track point is the class the bands give to the
    integer value of the wind speed cell, and 0 when that cell holds no
    text; it lies between 0 and 5; and it depends on nothing but that
    cell. *)
Theorem class_from_speed month row p :
  convert_row month row = Ok (Some p) ->
  (exists c, row !! 5%nat = Some c /\ speed_class c (class p))
  /\ 0 <= class p <= 5
  /\ (forall month' row' p',
        convert_row month' row' = Ok (Some p') ->
        row' !! 5%nat = row !! 5%nat -> class p' = class p).
Proof.
  intros Hp. destruct (convert_row_class _ _ _ Hp) as (c & Hc & Hk).
  split; [by eauto|]. split; [by eapply speed_class_range|].
  intros month' row' p' Hp' Heq.
  destruct (convert_row_class _ _ _ Hp') as (c' & Hc' & Hk').
  rewrite Heq, Hc in Hc'. injection Hc' as <-.
  by eapply speed_class_functional.
Qed.

(** What is stored for the speed and the pressure of a track point. *)
Lemma stored_speed_and_pressure month row p :
  convert_row month row = Ok (Some p) ->
  exists c5 c6, row !! 5%nat = Some c5 /\ row !! 6%nat = Some c6
    /\ speed_stored (unmark c5) (speed p) (class p)
    /\ pressure p = pressure_stored c6.
Proof.
  intros (c1 & t & _ & _ & Hp)%convert_row_inv.
  apply make_point_inv in Hp as (c5 & c6 & Hc5 & Hc6 & _ & Hpr & Hs).
  by exists c5, c6.
Qed.

(** *** The month filter *)

Lemma build_path_cons month row rows :
  build_path month (row :: rows)
  = r ← convert_row month row;
    path ← build_path month rows;
    Ok (match r with Some p => p :: path | None => path end).
Proof. done. Qed.

Lemma build_path_app month rows1 rows2 :
  build_path month (rows1 ++ rows2)
  = path1 ← build_path month rows1;
    path2 ← build_path month rows2;
    Ok (path1 ++ path2)%list.
Proof.
  induction rows1 as [|row rows1 IH]; simpl.
  - by destruct (build_path month rows2).
  - rewrite IH. destruct (convert_row month row) as [r|]; [simpl | done].
    destruct (build_path month rows1) as [path1|]; [simpl | done].
    destruct (build_path month rows2) as [path2|]; [simpl | done].
    by destruct r.
Qed.

Lemma strptime_truthy t d : strptime t = Some d -> str_truthy t = true.
Proof. by destruct t. Qed.

Lemma filter_time_unparsed month c :
  c = None \/ (exists t, c = Some t /\ strptime t = None) ->
  filter_time month c = Some c.
Proof.
  intros [->|(t & -> & Ht)]; [done|]. unfold filter_time.
  rewrite Ht. by destruct (str_truthy t).
Qed.

(** C10.  A row whose datetime cell is null, or does not parse, passes the
    month filter with its cell unchanged, whatever the month: when the path
    is built, the point made from the row, with that cell as its time,
    stands in it between the points of the rows before and of the rows
    after. *)
Theorem unparsed_rows_kept month rows1 row rows2 c path :
  row !! 1%nat = Some c ->
  c = None \/ (exists t, c = Some t /\ strptime t = None) ->
  build_path month (rows1 ++ row :: rows2) = Ok path ->
  filter_time month c = Some c
  /\ exists p path1 path2,
       build_path month rows1 = Ok path1
       /\ build_path month rows2 = Ok path2
       /\ make_point c row = Ok p /\ time p = c
       /\ path = (path1 ++ p :: path2)%list.
Proof.
  intros Hrow Hc Hpath. pose proof (filter_time_unparsed month c Hc) as Hf.
  split; [done|].
  rewrite build_path_app in Hpath. bind_inv Hpath path1 Hpath1.
  bind_inv Hpath path' Hpath'. injection Hpath as <-.
  rewrite build_path_cons in Hpath'. bind_inv Hpath' r Hr.
  bind_inv Hpath' path2 Hpath2. injection Hpath' as <-.
  unfold convert_row in Hr. apply index_Ok in Hrow.
  rewrite Hrow, bind_ret, Hf in Hr. bind_inv Hr p Hp. injection Hr as <-.
  exists p, path1, path2. split_and!; [done..| |done].
  by apply make_point_inv in Hp as (_ & _ & _ & _ & ? & _).
Qed.

Lemma filter_time_skips month m t d :
  month_truthy month = true -> month_int month = Ok m ->
  strptime t = Some d -> dt_month d <> m ->
  filter_time month (Some t) = None.
Proof.
  intros Hm Hint Ht Hne. unfold filter_time.
  rewrite (strptime_truthy _ _ Ht), Ht, Hm, Hint.
  by destruct (Z.eqb_spec (dt_month d) m).
Qed.

Lemma build_path_skip month m rows1 row rows2 t d :
  month_truthy month = true -> month_int month = Ok m ->
  row !! 1%nat = Some (Some t) ->
  strptime t = Some d -> dt_month d <> m ->
  build_path month (rows1 ++ row :: rows2) = build_path month (rows1 ++ rows2).
Proof.
  intros Hm Hint Hrow Ht Hne. rewrite !build_path_app, build_path_cons.
  unfold convert_row. apply index_Ok in Hrow. rewrite Hrow, bind_ret.
  rewrite (filter_time_skips _ _ _ _ Hm Hint Ht Hne), bind_ret.
  by rewrite bind_id.
Qed.

Lemma build_track_inv typhoon_name month first rest track :
  build_track typhoon_name month (first :: rest) = Ok track ->
  name track = typhoon_name
  /\ build_path month (first :: rest) = Ok (path track)
  /\ Some <$> start_time_of first = Ok (start_time track).
Proof.
  unfold build_track. intros Ht. bind_inv Ht path0 Hpath.
  bind_inv Ht start Hstart. by injection Ht as <-.
Qed.

End BuilderProperties.

(** ** The driver *)

Section PipelineProperties.
Context `{Platform}.

Lemma M_bind_at {A B} (m : M A) (f : A -> M B) (w : world) :
  (m ≫= f) w
  = match m w with
    | (Ok a, w') => f a w'
    | (Raise e, w') => (Raise e, w')
    end.
Proof. done. Qed.

Lemma M_ret_at {A} (a : A) (w : world) : (mret a : M A) w = (Ok a, w).
Proof. done. Qed.

Lemma M_bind_assoc_at {A B C} (m : M A) (f : A -> M B) (g : B -> M C) w :
  ((m ≫= f) ≫= g) w = (m ≫= (fun a => f a ≫= g)) w.
Proof. rewrite !M_bind_at. by destruct (m w) as [[a|e] w']. Qed.

(** A storm whose name and table were found, and whose rows the
    normaliser and the builder accept, is returned by the loop body,
    whatever its path holds. *)
Lemma scrape_storm_included month link w name0 w1 table w2 processed track :
  get_typhoon_name_from_link link w = (Ok (Some name0), w1) ->
  str_truthy name0 = true ->
  scrape_fourth_table link w1 = (Ok (Some table), w2) -> table <> [] ->
  add_missing_dates_and_empty_cells table = Ok processed ->
  build_track (working_name name0) month processed = Ok track ->
  scrape_storm month link w = (Ok (Some track), w2).
Proof.
  intros Hname Htruthy Htable Hne Hnorm Htrack.
  unfold scrape_storm. rewrite M_bind_at, Hname. simpl. rewrite Htruthy. simpl.
  rewrite M_bind_at, Htable. destruct table as [|r table]; [done|].
  rewrite M_bind_at. unfold lift at 1. rewrite Hnorm.
  rewrite M_bind_at. unfold lift at 1. by rewrite Htrack.
Qed.

Lemma scrape_storms_cons month link links w r w2 all w3 :
  scrape_storm month link w = (Ok r, w2) ->
  scrape_storms month links w2 = (Ok all, w3) ->
  scrape_storms month (link :: links) w
  = (Ok (match r with Some t => t :: all | None => all end), w3).
Proof.
  intros Hr Hall. simpl. rewrite M_bind_at, Hr, M_bind_at, Hall. done.
Qed.

(** C4.  Under a month filter [m] between 1 and 12, a row whose datetime
    cell parses to another month leaves no point in the path: the path of
    the track is the path of the other rows.  The start time of the track
    is still that of the first normalised row.  And the track is appended
    to the dataset whatever is left in its path. *)
Theorem month_filter_excludes month m link links w name0 w1 table w2
    processed rows1 row rows2 t d track all w3 :
  month_truthy month = true -> month_int month = Ok m -> 1 <= m <= 12 ->
  get_typhoon_name_from_link link w = (Ok (Some name0), w1) ->
  str_truthy name0 = true ->
  scrape_fourth_table link w1 = (Ok (Some table), w2) -> table <> [] ->
  add_missing_dates_and_empty_cells table = Ok processed ->
  processed = (rows1 ++ row :: rows2)%list ->
  row !! 1%nat = Some (Some t) -> strptime t = Some d -> dt_month d <> m ->
  build_track (working_name name0) month processed = Ok track ->
  scrape_storms month links w2 = (Ok all, w3) ->
  build_path month (rows1 ++ rows2) = Ok (path track)
  /\ (exists first, processed !! 0%nat = Some first
        /\ Some <$> start_time_of first = Ok (start_time track))
  /\ scrape_storms month (link :: links) w = (Ok (track :: all), w3).
Proof.
  intros Hm Hint _ Hname Htruthy Htable Hne Hnorm Hrows Hrow Ht Hmonth
    Htrack Hall.
  assert (exists first rest, processed = first :: rest) as (first & rest & Hp).
  { rewrite Hrows. destruct rows1; simpl; eauto. }
  pose proof Htrack as Htrack'. rewrite Hp in Htrack'.
  apply build_track_inv in Htrack' as (_ & Hpath & Hstart).
  split_and!.
  - rewrite <- Hpath, <- Hp, Hrows. symmetry. by eapply build_path_skip.
  - exists first. by rewrite Hp.
  - eapply (scrape_storms_cons _ _ _ _ (Some track)); [|done].
    by eapply scrape_storm_included.
Qed.

(** *** Computations that only use the web *)

Lemma web_only_ret {A} (a : A) : web_only (mret a).
Proof.
  intros w. split; [by exists []|].
  intros w' Hw'. split; [reflexivity | exact Hw'].
Qed.

Lemma web_only_lift {A} (r : result A) : web_only (lift r).
Proof.
  intros w. split; [by exists []|].
  intros w' Hw'. split; [reflexivity | exact Hw'].
Qed.

Lemma web_only_bind {A B} (m : M A) (f : A -> M B) :
  web_only m -> (forall a, web_only (f a)) -> web_only (m ≫= f).
Proof.
  intros Hm Hf w. destruct (Hm w) as [[l Hl] Hm'].
  rewrite M_bind_at. destruct (m w) as [[a|e] w1] eqn:Hw; simpl in *.
  - destruct (Hf a w1) as [[l' Hl'] Hf']. split.
    + exists (l' ++ l)%list. by rewrite Hl', Hl, app_assoc.
    + intros w' Hw'. destruct (Hm' w' Hw') as [Hres Hreq].
      rewrite M_bind_at. destruct (m w') as [[a'|e'] w1']; simpl in *;
        [|discriminate]. injection Hres as ->. by apply Hf'.
  - split; [by exists l|]. intros w' Hw'.
    destruct (Hm' w' Hw') as [Hres Hreq].
    rewrite M_bind_at. destruct (m w') as [[a'|e'] w1']; simpl in *;
      [discriminate|]. injection Hres as ->. by split.
Qed.

Lemma web_only_http_get url : web_only (http_get url).
Proof.
  intros w. split; [by exists [url] |]. intros w' Hw'. simpl.
  by rewrite Hw'.
Qed.

Lemma web_only_save_cache data year basin_name folder_path :
  web_only (save_cache data year basin_name folder_path).
Proof.
  intros w. unfold save_cache. split.
  - exists []. simpl. by destruct (path_exists w folder_path).
  - intros w' Hw'. simpl.
    by destruct (path_exists w folder_path), (path_exists w' folder_path).
Qed.

Create HintDb web.

#[local] Hint Resolve web_only_ret web_only_lift web_only_http_get
  web_only_save_cache : web.

Ltac web_only_step :=
  match goal with
  | |- web_only (_ ≫= _) => apply web_only_bind; [|intros ?]
  | |- web_only (if ?b then _ else _) => destruct b
  | |- web_only (match ?x with _ => _ end) => destruct x
  | |- web_only _ => solve [auto with web]
  end.

Lemma web_only_fetch_year_page year : web_only (fetch_year_page year).
Proof. unfold fetch_year_page. repeat web_only_step. Qed.

Lemma web_only_scrape_fourth_table link : web_only (scrape_fourth_table link).
Proof. unfold scrape_fourth_table. repeat web_only_step. Qed.

Lemma web_only_get_typhoon_name_from_link link :
  web_only (get_typhoon_name_from_link link).
Proof. unfold get_typhoon_name_from_link. repeat web_only_step. Qed.

#[local] Hint Resolve web_only_fetch_year_page web_only_scrape_fourth_table
  web_only_get_typhoon_name_from_link : web.

Lemma web_only_scrape_storm month link : web_only (scrape_storm month link).
Proof. unfold scrape_storm. repeat web_only_step. Qed.

Lemma web_only_scrape_storms month links : web_only (scrape_storms month links).
Proof.
  induction links as [|link links IH]; simpl; [auto with web|].
  apply web_only_bind; [apply web_only_scrape_storm | intros r].
  apply web_only_bind; [done | intros all]. auto with web.
Qed.

#[local] Hint Resolve web_only_scrape_storms : web.




(** *** The cache *)

Lemma scrape_hit year basin_name month folder_path w d :
  cache_hit w year basin_name folder_path = Some d ->
  scrape_typhoon_data year basin_name month folder_path w = (Ok (Some d), w).
Proof.
  unfold cache_hit, scrape_typhoon_data, load_cache. rewrite M_bind_at.
  destruct (files w !! _) as [contents|]; [|done].
  destruct (json_loads contents) as [d'|]; [|done].
  destruct (truthy d') eqn:Hd; [|done]. by intros [= ->].
Qed.




(** *** The start time *)

Lemma start_time_of_text first s :
  first !! 1%nat = Some (Some s) ->
  start_time_of first
  = Ok (match strptime s with
        | Some d => Some (utc_seconds (replace_second0 d)
                          - utcoffset (replace_second0 d))
        | None => None
        end).
Proof.
  intros Hs. unfold start_time_of. apply index_Ok in Hs. rewrite Hs, bind_ret.
  by destruct (strptime s).
Qed.

Lemma start_time_of_null first :
  first !! 1%nat = Some None -> start_time_of first = Raise TypeError.
Proof. intros Hs. unfold start_time_of. apply index_Ok in Hs. by rewrite Hs. Qed.

(** A failed fetch of the year page hands [None] to [BeautifulSoup]: what
    the scrape does then is what [BeautifulSoup] does with it. *)
Lemma failed_year_page year basin_name month folder_path w status body e :
  requests_get (BASE_URL +:+ "?name=YearBasin-" +:+ year) = Ok (status, body) ->
  status <> 200 ->
  BeautifulSoup None = Raise e ->
  (save_data_as_json year basin_name month folder_path w).1 = Raise e.
Proof.
  intros Hget Hstatus Hsoup.
  change (save_data_as_json year basin_name month folder_path w)
    with ((fetch_year_page year
           ≫= after_year_page year basin_name month folder_path) w).
  unfold fetch_year_page.
  rewrite M_bind_assoc_at, M_bind_at. unfold http_get at 1. rewrite Hget.
  simpl. destruct (Z.eqb_spec status 200) as [|_]; [done|]. simpl.
  rewrite M_bind_at, M_ret_at. unfold after_year_page.
  rewrite M_bind_at. unfold lift at 1, extract_links_from_second_table.
  by rewrite Hsoup.
Qed.

End PipelineProperties.

(** ** The properties on the sample platform *)

Lemma class_from_speed_witness :
  @convert_row sample_platform june hurricane_row = Ok (Some hurricane_point)
  /\ (exists c, hurricane_row !! 5%nat = Some c
                /\ speed_class c (class hurricane_point))
  /\ 0 <= class hurricane_point <= 5.
Proof.
  assert (@convert_row sample_platform june hurricane_row
          = Ok (Some hurricane_point)) as Hrow by reflexivity.
  split; [exact Hrow|].
  destruct (@class_from_speed sample_platform june hurricane_row
              hurricane_point Hrow) as (Hclass & Hrange & _).
  by split.
Defined.

Lemma unparsed_rows_kept_witness :
  bare_row !! 1%nat = Some (Some "06:00:00")
  /\ strptime "06:00:00" = None
  /\ @build_path sample_platform june ([] ++ bare_row :: [hurricane_row])
     = Ok [bare_point; hurricane_point]
  /\ filter_time june (Some "06:00:00") = Some (Some "06:00:00")
  /\ exists p path1 path2,
       @build_path sample_platform june [] = Ok path1
       /\ @build_path sample_platform june [hurricane_row] = Ok path2
       /\ @make_point sample_platform (Some "06:00:00") bare_row = Ok p
       /\ time p = Some "06:00:00"
       /\ [bare_point; hurricane_point] = (path1 ++ p :: path2)%list.
Proof.
  assert (bare_row !! 1%nat = Some (Some "06:00:00")) as Hcell by reflexivity.
  assert (strptime "06:00:00" = None) as Hparse by reflexivity.
  assert (@build_path sample_platform june ([] ++ bare_row :: [hurricane_row])
          = Ok [bare_point; hurricane_point]) as Hpath by reflexivity.
  split_and!; [exact Hcell | exact Hparse | exact Hpath | |];
    apply (@unparsed_rows_kept sample_platform june [] bare_row
             [hurricane_row] (Some "06:00:00") [bare_point; hurricane_point]
             Hcell (or_intror (ex_intro _ "06:00:00" (conj eq_refl Hparse)))
             Hpath).
Defined.

Lemma month_filter_excludes_witness :
  month_truthy june = true /\ month_int june = Ok 6 /\ 1 <= 6 <= 12
  /\ @get_typhoon_name_from_link sample_platform haishen_link empty_world
     = (Ok (Some "Typhoon HAISHEN 2020"), after_requests [haishen_link])
  /\ str_truthy "Typhoon HAISHEN 2020" = true
  /\ @scrape_fourth_table sample_platform haishen_link
       (after_requests [haishen_link])
     = (Ok (Some haishen_rows), after_requests [haishen_link; haishen_link])
  /\ haishen_rows <> []
  /\ add_missing_dates_and_empty_cells haishen_rows = Ok haishen_processed
  /\ haishen_processed = ([] ++ haishen_first :: [haishen_second])%list
  /\ haishen_first !! 1%nat = Some (Some "2020-05-10 00:00:00")
  /\ strptime "2020-05-10 00:00:00" = Some (mkDatetime 2020 5 10 0 0 0)
  /\ dt_month (mkDatetime 2020 5 10 0 0 0) <> 6
  /\ @build_track sample_platform (working_name "Typhoon HAISHEN 2020") june
       haishen_processed
     = Ok haishen_track
  /\ @scrape_storms sample_platform june []
       (after_requests [haishen_link; haishen_link])
     = (Ok [], after_requests [haishen_link; haishen_link])
  /\ @build_path sample_platform june ([] ++ [haishen_second])
     = Ok (path haishen_track)
  /\ path haishen_track = []
  /\ start_time haishen_track = Some (Some 1589068800)
  /\ @scrape_storms sample_platform june [haishen_link] empty_world
     = (Ok [haishen_track], after_requests [haishen_link; haishen_link]).
Proof.
  assert (1 <= 6 <= 12) as Hm by lia.
  assert (haishen_rows <> []) as Hne by discriminate.
  assert (dt_month (mkDatetime 2020 5 10 0 0 0) <> 6) as Hmonth
    by discriminate.
  destruct (@month_filter_excludes sample_platform june 6 haishen_link []
              empty_world "Typhoon HAISHEN 2020"
              (after_requests [haishen_link]) haishen_rows
              (after_requests [haishen_link; haishen_link])
              haishen_processed [] haishen_first [haishen_second]
              "2020-05-10 00:00:00" (mkDatetime 2020 5 10 0 0 0)
              haishen_track []
              (after_requests [haishen_link; haishen_link])
              eq_refl eq_refl Hm eq_refl eq_refl eq_refl Hne eq_refl eq_refl
              eq_refl eq_refl Hmonth eq_refl eq_refl)
    as (Hpath & _ & Hall).
  split_and!; try reflexivity; try assumption; lia.
Defined.




(** C7, at the failing input.  The first row of DOLPHIN has an empty
    datetime cell, which the normaliser turns into null; the path is built,
    and then the start time raises [TypeError]: no track is made, where
    the specification has a track with a null start time. *)
Theorem start_time_null_cell_raises :
  add_missing_dates_and_empty_cells dolphin_rows = Ok dolphin_processed
  /\ cell_at dolphin_processed 0 1 = Some None
  /\ is_ok (@build_path sample_platform None dolphin_processed) = true
  /\ @build_track sample_platform "DOLPHIN" None dolphin_processed
     = Raise TypeError.
Proof. repeat split; reflexivity. Qed.

(** C8, at the failing input.  A wind speed cell that holds 0 is a present
    numeric speed, whose string form is 0; it is stored as the text for an
    absent speed.  The pressure cell with the same text is stored as it
    is. *)
Theorem zero_speed_stored_as_absent :
  calm_row !! 5%nat = Some (Some "0") /\ py_int "0" = Ok 0
  /\ str_of_int 0 = "0"
  /\ @convert_row sample_platform None calm_row = Ok (Some calm_point)
  /\ speed calm_point = "< 35" /\ pressure calm_point = "0".
Proof. repeat split; reflexivity. Qed.

(** C9, at two failing inputs.  With a wind speed cell that is not a
    number (the page of NOUL, year 2021) the call raises [ValueError];
    with an empty datetime cell in the first row (the page of DOLPHIN, year
    2022) it raises [TypeError]. *)
Theorem scrape_raises :
  cell_at noul_rows 1 5 = Some "< 35"
  /\ (@scrape_typhoon_data sample_platform "2021" "Western Pacific" None "data"
        empty_world).1
     = Raise ValueError
  /\ cell_at dolphin_rows 0 1 = Some ""
  /\ (@scrape_typhoon_data sample_platform "2022" "Western Pacific" None "data"
        empty_world).1
     = Raise TypeError.
Proof. split_and!; by vm_compute. Qed.

(** * Further properties of the script *)

(** ** The normaliser: shape, marker, first row *)

Lemma fix_datetime_length ld row ld' row1 :
  fix_datetime ld row = Ok (ld', row1) -> length row1 = length row.
Proof.
  intros (x & _ & [(_ & -> & _)|(_ & _ & ->)])%fix_datetime_inv; [done|].
  apply length_insert.
Qed.

Lemma normalize_rows_shape ld lr data out j row orow :
  normalize_rows ld lr data = Ok out ->
  data !! j = Some row -> out !! j = Some orow -> length orow = length row.
Proof.
  intros Hn Hrow Ho.
  destruct (normalize_rows_lookup _ _ _ _ Hn _ _ Hrow)
    as (ld_j & ld_j' & row1 & orow' & Ho' & Hf & Hfill).
  rewrite Ho in Ho'. injection Ho' as <-.
  rewrite (fill_cells_length _ _ _ _ Hfill). by eapply fix_datetime_length.
Qed.

(** X1.  Normalisation keeps the shape of the matrix: as many rows, and in
    each row as many cells. *)
Theorem normalized_shape data out :
  add_missing_dates_and_empty_cells data = Ok out ->
  length out = length data
  /\ forall j row orow,
       data !! j = Some row -> out !! j = Some orow ->
       length orow = length row.
Proof.
  intros Hn. destruct data as [|row0 data].
  { injection Hn as <-. split; [done|]. by intros []. }
  unfold add_missing_dates_and_empty_cells in Hn. split.
  - by rewrite (normalize_rows_length _ _ _ _ Hn).
  - intros j row orow Hrow Ho. destruct j as [|j].
    + injection Hrow as <-.
      rewrite (normalize_rows_shape _ _ _ _ 0%nat _ _ Hn eq_refl Ho).
      unfold mark_empty. apply length_fmap.
    + by eapply (normalize_rows_shape _ _ _ _ (S j)).
Qed.

Lemma normalized_shape_witness :
  add_missing_dates_and_empty_cells sample_rows = Ok sample_rows_normalized
  /\ length sample_rows_normalized = length sample_rows.
Proof.
  assert (add_missing_dates_and_empty_cells sample_rows
          = Ok sample_rows_normalized) as Hn by reflexivity.
  split; [exact Hn|]. apply (normalized_shape _ _ Hn).
Defined.

Lemma fill_cell_clean lr i c v :
  (forall prev, lr = Some prev -> Forall (fun u => u <> Some NA) prev) ->
  fill_cell lr i c = Ok v -> v <> Some NA.
Proof.
  intros Hclean. unfold fill_cell.
  destruct (String.eqb_spec c NA) as [->|Hne]; [by intros [= <-]|].
  destruct (str_truthy c); [intros [= <-]; congruence|].
  destruct lr as [[|p prev]|]; [intros [= <-]; congruence | | intros [= <-]; congruence].
  intros Hv%index_Ok.
  specialize (Hclean _ eq_refl). rewrite Forall_forall in Hclean.
  apply Hclean. by eapply list_elem_of_lookup_2.
Qed.

Lemma fill_cells_clean lr i row out :
  (forall prev, lr = Some prev -> Forall (fun u => u <> Some NA) prev) ->
  fill_cells lr i row = Ok out -> Forall (fun u => u <> Some NA) out.
Proof.
  intros Hclean. revert i out.
  induction row as [|c row IH]; intros i out Hf; simpl in Hf.
  - injection Hf as <-. constructor.
  - bind_inv Hf v Hv. bind_inv Hf vs Hvs. injection Hf as <-.
    constructor; [by eapply fill_cell_clean | by eapply IH].
Qed.

Lemma normalize_rows_clean ld lr data out :
  (forall prev, lr = Some prev -> Forall (fun u => u <> Some NA) prev) ->
  normalize_rows ld lr data = Ok out ->
  Forall (Forall (fun u => u <> Some NA)) out.
Proof.
  revert ld lr out.
  induction data as [|r data IH]; intros ld lr out Hclean Hn; simpl in Hn.
  - injection Hn as <-. constructor.
  - bind_inv Hn p Hp. destruct p as [ld' row1].
    bind_inv Hn row2 Hrow2. bind_inv Hn rest Hrest. injection Hn as <-.
    pose proof (fill_cells_clean _ _ _ _ Hclean Hrow2) as Hrow.
    constructor; [done|]. eapply IH; [|done]. by intros prev [= <-].
Qed.

(** X2.  The marker does not survive normalisation: no cell of the result
    is the text "N / A", so the tests against the marker in the record
    builder leave every normalised cell as it is. *)
Theorem no_marker_left data out j c v :
  add_missing_dates_and_empty_cells data = Ok out ->
  cell_at out j c = Some v ->
  v <> Some NA /\ unmark v = v.
Proof.
  intros Hn Hv.
  assert (Forall (Forall (fun u => u <> Some NA)) out) as Hclean.
  { destruct data as [|row0 data]; [injection Hn as <-; constructor|].
    eapply normalize_rows_clean; [|exact Hn]. done. }
  unfold cell_at in Hv. destruct (out !! j) as [orow|] eqn:Ho; [|done].
  simpl in Hv. rewrite Forall_forall in Hclean.
  pose proof (Hclean _ (list_elem_of_lookup_2 _ _ _ Ho)) as Hrow.
  rewrite Forall_forall in Hrow.
  pose proof (Hrow _ (list_elem_of_lookup_2 _ _ _ Hv)) as Hne.
  split; [done|]. unfold unmark. destruct v as [s|]; [|done].
  destruct (String.eqb_spec s NA) as [->|]; done.
Qed.

Lemma no_marker_left_witness :
  add_missing_dates_and_empty_cells sample_rows = Ok sample_rows_normalized
  /\ cell_at sample_rows_normalized 3 2 = Some None
  /\ (None : cell) <> Some NA /\ unmark None = None.
Proof.
  assert (add_missing_dates_and_empty_cells sample_rows
          = Ok sample_rows_normalized) as Hn by reflexivity.
  assert (cell_at sample_rows_normalized 3 2 = Some None) as Hv
    by reflexivity.
  split; [exact Hn|]. split; [exact Hv|].
  apply (no_marker_left sample_rows sample_rows_normalized 3 2 None Hn Hv).
Defined.

Lemma settled_fill_no_previous i c : fill_cell None i c = Ok (settled c).
Proof.
  unfold fill_cell, settled. destruct (String.eqb c NA); [done|].
  by destruct (str_truthy c).
Qed.

Lemma fill_cells_no_previous i row :
  fill_cells None i row = Ok (settled <$> row).
Proof.
  revert i. induction row as [|c row IH]; intros i; simpl; [done|].
  by rewrite settled_fill_no_previous, bind_ret, IH.
Qed.

Lemma fix_datetime_first row ld' row1 :
  fix_datetime None row = Ok (ld', row1) -> row1 = row.
Proof.
  intros (x & Hx & [(_ & -> & _)|(_ & _ & ->)])%fix_datetime_inv; [done|].
  by apply list_insert_id.
Qed.

(** X3.  The first row is never gap-filled: each of its cells that is empty
    or the marker becomes null, every other cell is kept as it is, the
    datetime cell included. *)
Theorem first_row_settled row0 rest out :
  add_missing_dates_and_empty_cells (row0 :: rest) = Ok out ->
  out !! 0%nat = Some (first_row_cell <$> row0).
Proof.
  unfold add_missing_dates_and_empty_cells. simpl. intros Hn.
  bind_inv Hn p Hp. destruct p as [ld' row1].
  bind_inv Hn row2 Hrow2. bind_inv Hn rest' Hrest. injection Hn as <-.
  apply fix_datetime_first in Hp as ->.
  rewrite fill_cells_no_previous in Hrow2. injection Hrow2 as <-.
  simpl. f_equal. unfold mark_empty. rewrite <- list_fmap_compose.
  apply list_fmap_ext. intros _ c _. simpl. unfold first_row_cell.
  by destruct (str_truthy c).
Qed.

Lemma first_row_settled_witness :
  add_missing_dates_and_empty_cells dolphin_rows = Ok dolphin_processed
  /\ dolphin_processed !! 0%nat
     = Some (first_row_cell <$> ["0"; ""; "TS"; "25.0"; "135.0"; "35"; "1000"]).
Proof.
  assert (add_missing_dates_and_empty_cells dolphin_rows
          = Ok dolphin_processed) as Hn by reflexivity.
  split; [exact Hn|]. apply (first_row_settled _ _ _ Hn).
Defined.

(** *** The running date *)

Lemma str_truthy_nonempty s : str_truthy s = true -> s <> "".
Proof. by intros Hs ->. Qed.

Lemma contains_space_truthy s : contains_space s = true -> str_truthy s = true.
Proof. by destruct s. Qed.

Lemma isspace_space c : isspace c = false -> Ascii.eqb c " " = false.
Proof. destruct (Ascii.eqb_spec c " ") as [->|]; [discriminate | done]. Qed.

Lemma split_from_no_space cur s t :
  t ∈ split_from cur s -> contains_space cur = false ->
  contains_space t = false.
Proof.
  revert cur. induction s as [|c s IH]; intros cur; simpl.
  - destruct (String.eqb cur ""); [by intros ?%elem_of_nil|].
    by intros ->%list_elem_of_singleton.
  - destruct (isspace c) eqn:Hc.
    + destruct (String.eqb cur "").
      * intros Ht _. by eapply IH.
      * intros [->|Ht]%elem_of_cons Hcur; [done|]. by eapply IH.
    + intros Ht Hcur. eapply IH; [done|].
      rewrite contains_space_app, Hcur. simpl.
      by rewrite (isspace_space _ Hc).
Qed.

Lemma dated_text_not_marker d x :
  d <> "" -> contains_space d = false -> contains_space x = false ->
  d +:+ " " +:+ x <> NA.
Proof.
  intros Hd Hds Hxs Heq. destruct d as [|a d]; [done|].
  destruct d as [|b d]; cbv [String.append NA] in Heq.
  - injection Heq as _ ->. discriminate Hxs.
  - injection Heq as _ -> _. simpl in Hds.
    by destruct (Ascii.eqb a " ").
Qed.

(** With the running date [d], a row whose datetime cell has no space gets
    [d], a space and its cell, as long as no row in between brings a
    date. *)
Lemma normalize_rows_bare d lr data out j x :
  normalize_rows (Some d) lr data = Ok out ->
  str_truthy d = true ->
  (forall i, (i <= j)%nat ->
     exists xi, cell_at data i 1 = Some xi /\ contains_space xi = false) ->
  cell_at data j 1 = Some x ->
  cell_at out j 1 = Some (settled (d +:+ " " +:+ x)).
Proof.
  revert lr out j.
  induction data as [|r data IH]; intros lr out j Hn Hd Hbare Hx; [done|].
  simpl in Hn. bind_inv Hn p Hp. destruct p as [ld' row1].
  bind_inv Hn row2 Hrow2. bind_inv Hn rest Hrest. injection Hn as <-.
  destruct (fix_datetime_inv _ _ _ _ Hp) as (x0 & Hx0 & Hcase).
  destruct (Hbare 0%nat ltac:(lia)) as (x0' & Hx0' & Hs0).
  unfold cell_at in Hx0'. simpl in Hx0'. rewrite Hx0 in Hx0'.
  injection Hx0' as <-.
  destruct Hcase as [(Hs & _)|(_ & -> & ->)]; [congruence|].
  rewrite Hd in Hrow2. destruct j as [|j]; unfold cell_at in *; simpl in *.
  - rewrite Hx0 in Hx. injection Hx as <-.
    assert ((<[1%nat := d +:+ " " +:+ x0]> r) !! 1%nat
            = Some (d +:+ " " +:+ x0)) as Hy.
    { apply list_lookup_insert_eq. by eapply lookup_lt_Some. }
    destruct (fill_cells_lookup _ _ _ _ Hrow2 _ _ Hy) as (v & Hv & Hfill).
    rewrite fill_cell_nonempty in Hfill.
    + injection Hfill as <-. by rewrite Hv.
    + apply contains_space_nonempty. rewrite !contains_space_app. simpl.
      by rewrite orb_true_r.
  - eapply IH; [done..| |done]. intros i Hi. apply (Hbare (S i)). lia.
Qed.

Lemma normalize_rows_latest ld lr data out k j xk d x :
  normalize_rows ld lr data = Ok out ->
  (k < j)%nat ->
  cell_at data k 1 = Some xk -> contains_space xk = true ->
  split xk !! 0%nat = Some d ->
  (forall i, (k < i <= j)%nat ->
     exists xi, cell_at data i 1 = Some xi /\ contains_space xi = false) ->
  cell_at data j 1 = Some x ->
  cell_at out j 1 = Some (settled (d +:+ " " +:+ x)).
Proof.
  revert ld lr out k j.
  induction data as [|r data IH]; intros ld lr out k j Hn Hkj Hk Hsp Hd Hbare Hx;
    [done|].
  simpl in Hn. bind_inv Hn p Hp. destruct p as [ld' row1].
  bind_inv Hn row2 Hrow2. bind_inv Hn rest Hrest. injection Hn as <-.
  destruct j as [|j]; [lia|]. destruct k as [|k].
  - unfold fix_datetime in Hp. unfold cell_at in Hk. simpl in Hk.
    apply index_Ok in Hk. rewrite Hk, bind_ret, Hsp in Hp.
    apply index_Ok in Hd. rewrite Hd, bind_ret in Hp. injection Hp as <- <-.
    apply index_Ok in Hd.
    eapply (normalize_rows_bare _ _ _ _ j); [done| | |done].
    + eapply split_from_truthy, list_elem_of_lookup_2, Hd.
    + intros i Hi. apply (Hbare (S i)). lia.
  - eapply (IH _ _ _ k j Hrest); [lia | done.. | | done].
    intros i Hi. apply (Hbare (S i)). lia.
Qed.

(** X4.  A bare time takes the date of the latest row above it that has
    one: when the datetime cell of row [k] has a space and first token [d],
    and no row after [k] up to row [j] has a space in its datetime cell,
    the datetime cell of row [j] becomes [d], a space, and its own text. *)
Theorem bare_time_takes_latest_date data out k j xk d x :
  add_missing_dates_and_empty_cells data = Ok out ->
  (k < j)%nat ->
  cell_at data k 1 = Some xk -> contains_space xk = true ->
  split xk !! 0%nat = Some d ->
  (forall i, (k < i <= j)%nat ->
     exists xi, cell_at data i 1 = Some xi /\ contains_space xi = false) ->
  cell_at data j 1 = Some x ->
  cell_at out j 1 = Some (Some (d +:+ " " +:+ x)).
Proof.
  intros Hn Hkj Hk Hsp Hd Hbare Hx.
  destruct data as [|row0 data]; [done|].
  unfold add_missing_dates_and_empty_cells in Hn.
  assert (settled (d +:+ " " +:+ x) = Some (d +:+ " " +:+ x)) as <-.
  { unfold settled.
    destruct (String.eqb_spec (d +:+ " " +:+ x) NA) as [Heq|]; [|done].
    exfalso. revert Heq. apply dated_text_not_marker.
    - eapply str_truthy_nonempty, split_from_truthy, list_elem_of_lookup_2, Hd.
    - eapply split_from_no_space; [eapply list_elem_of_lookup_2, Hd | done].
    - destruct (Hbare j ltac:(lia)) as (xj & Hxj & Hs). congruence. }
  eapply (normalize_rows_latest _ _ _ _ k j xk); [done | done | | done..| |].
  - rewrite (cell_at_marked _ _ _ _ _ Hk). destruct k; [|done].
    by rewrite (contains_space_truthy _ Hsp).
  - intros i Hi. destruct (Hbare i Hi) as (xi & Hxi & Hs). exists xi.
    split; [|done]. rewrite (cell_at_marked _ _ _ _ _ Hxi).
    destruct i; [lia | done].
  - rewrite (cell_at_marked _ _ _ _ _ Hx). destruct j; [lia | done].
Qed.

Lemma bare_time_takes_latest_date_witness :
  add_missing_dates_and_empty_cells sample_rows = Ok sample_rows_normalized
  /\ (4 < 5)%nat
  /\ cell_at sample_rows 4 1 = Some "2020-01-02 00:00:00"
  /\ contains_space "2020-01-02 00:00:00" = true
  /\ split "2020-01-02 00:00:00" !! 0%nat = Some "2020-01-02"
  /\ (forall i, (4 < i <= 5)%nat ->
        exists xi, cell_at sample_rows i 1 = Some xi
                   /\ contains_space xi = false)
  /\ cell_at sample_rows 5 1 = Some "06:00:00"
  /\ cell_at sample_rows_normalized 5 1 = Some (Some "2020-01-02 06:00:00").
Proof.
  assert (forall i, (4 < i <= 5)%nat ->
            exists xi, cell_at sample_rows i 1 = Some xi
                       /\ contains_space xi = false) as Hbare.
  { intros i Hi. replace i with 5%nat by lia. by exists "06:00:00". }
  split_and!; [reflexivity | lia | reflexivity | reflexivity | reflexivity
               | exact Hbare | reflexivity |].
  apply (bare_time_takes_latest_date sample_rows sample_rows_normalized 4 5
           "2020-01-02 00:00:00" "2020-01-02" "06:00:00");
    [reflexivity | lia | reflexivity | reflexivity | reflexivity
     | exact Hbare | reflexivity].
Defined.

(** *** When the normaliser returns, and when it raises *)

Lemma lstrip_length s : (String.length (lstrip s) <= String.length s)%nat.
Proof.
  induction s as [|c s IH]; simpl; [done|].
  destruct (isspace c); simpl; lia.
Qed.

Lemma no_leading_space_head c r :
  no_leading_space (String c r) -> isspace c = false.
Proof.
  unfold no_leading_space. simpl. destruct (isspace c); [|done].
  intros Heq. pose proof (lstrip_length r) as Hlen.
  rewrite Heq in Hlen. simpl in Hlen. lia.
Qed.

Lemma split_from_nonempty cur s : cur <> "" -> split_from cur s <> [].
Proof.
  revert cur. induction s as [|c s IH]; intros cur Hcur; simpl.
  - by destruct (String.eqb_spec cur "").
  - destruct (isspace c).
    + by destruct (String.eqb_spec cur "").
    + apply IH. by destruct cur.
Qed.

Lemma no_leading_space_split x :
  no_leading_space x -> x <> "" -> split x <> [].
Proof.
  intros Hx Hne. destruct x as [|c r]; [done|].
  unfold split. simpl. rewrite (no_leading_space_head _ _ Hx).
  by apply split_from_nonempty.
Qed.

Lemma fill_cell_returns lr i c :
  (forall prev, lr = Some prev -> (i < length prev)%nat) ->
  exists v, fill_cell lr i c = Ok v.
Proof.
  intros Hlen. unfold fill_cell.
  destruct (String.eqb c NA); [eauto|]. destruct (str_truthy c); [eauto|].
  destruct lr as [[|p prev]|]; [eauto | | eauto].
  destruct (lookup_lt_is_Some_2 (p :: prev) i (Hlen _ eq_refl)) as [v Hv].
  exists v. by apply index_Ok.
Qed.

Lemma fill_cells_returns lr i row :
  (forall prev, lr = Some prev -> (i + length row <= length prev)%nat) ->
  exists out, fill_cells lr i row = Ok out.
Proof.
  revert i. induction row as [|c row IH]; intros i Hlen; simpl; [eauto|].
  destruct (fill_cell_returns lr i c) as [v ->].
  { intros prev Hprev. specialize (Hlen _ Hprev). simpl in Hlen. lia. }
  destruct (IH (S i)) as [vs ->]; [|by eauto].
  intros prev Hprev. specialize (Hlen _ Hprev). simpl in Hlen. lia.
Qed.

Lemma fix_datetime_returns ld row :
  (2 <= length row)%nat -> datetime_splits row ->
  exists ld' row1, fix_datetime ld row = Ok (ld', row1).
Proof.
  intros Hlen Hsplit. unfold fix_datetime.
  destruct (lookup_lt_is_Some_2 row 1 ltac:(lia)) as [x Hx].
  rewrite (proj2 (index_Ok _ _ _) Hx), bind_ret.
  destruct (contains_space x) eqn:Hs.
  - destruct (split x) as [|d l] eqn:Hd; [by destruct (Hsplit x Hx Hs)|].
    by eauto.
  - destruct ld as [d|]; [destruct (str_truthy d)|]; eauto.
Qed.

Lemma normalize_rows_returns ld lr data n :
  (2 <= n)%nat ->
  Forall (fun row => length row = n) data ->
  Forall datetime_splits data ->
  (forall prev, lr = Some prev -> length prev = n) ->
  exists out, normalize_rows ld lr data = Ok out.
Proof.
  intros Hn. revert ld lr.
  induction data as [|r data IH]; intros ld lr Hlen Hsplit Hprev; simpl;
    [eauto|].
  apply Forall_cons in Hlen as [Hr Hlen].
  apply Forall_cons in Hsplit as [Hrs Hsplit].
  destruct (fix_datetime_returns ld r ltac:(lia) Hrs) as (ld' & row1 & Hfix).
  rewrite Hfix, bind_ret.
  pose proof (fix_datetime_length _ _ _ _ Hfix) as Hlen1.
  destruct (fill_cells_returns lr 0 row1) as [row2 Hrow2].
  { intros prev ->%Hprev. simpl. lia. }
  rewrite Hrow2, bind_ret.
  destruct (IH ld' (Some row2) Hlen Hsplit) as [rest ->]; [|by eauto].
  intros prev [= <-]. rewrite (fill_cells_length _ _ _ _ Hrow2). lia.
Qed.

Lemma no_leading_space_splits row :
  Forall no_leading_space row -> datetime_splits row.
Proof.
  intros Hrow x Hx Hs. rewrite Forall_forall in Hrow.
  apply no_leading_space_split.
  - apply Hrow. by eapply list_elem_of_lookup_2.
  - by apply contains_space_nonempty.
Qed.

Lemma normalize_marked_returns row0 data n :
  (2 <= n)%nat ->
  Forall (fun row => length row = n) (row0 :: data) ->
  Forall (Forall no_leading_space) (row0 :: data) ->
  exists out, normalize_rows None None (mark_empty row0 :: data) = Ok out.
Proof.
  intros Hn Hlen Hclean.
  apply Forall_cons in Hlen as [Hr Hlen].
  apply Forall_cons in Hclean as [Hr0 Hclean].
  apply (normalize_rows_returns _ _ _ n Hn); [| |done].
  - constructor; [|done]. unfold mark_empty. by rewrite length_fmap.
  - constructor.
    + apply no_leading_space_splits. unfold mark_empty.
      apply Forall_fmap. eapply Forall_impl; [exact Hr0|].
      intros x Hx. simpl. by destruct (str_truthy x).
    + eapply Forall_impl; [exact Hclean|]. apply no_leading_space_splits.
Qed.

(** X5.  On a rectangular matrix of two columns or more whose cells do
    not start with whitespace, the normaliser returns: none of its
    subscripts is out of range. *)
Theorem normalizes_rectangular data n :
  (2 <= n)%nat ->
  Forall (fun row => length row = n) data ->
  Forall (Forall no_leading_space) data ->
  exists out, add_missing_dates_and_empty_cells data = Ok out.
Proof.
  intros Hn Hlen Hclean. destruct data as [|row0 data]; [by eexists|].
  unfold add_missing_dates_and_empty_cells.
  by eapply normalize_marked_returns.
Qed.

Lemma normalizes_rectangular_witness :
  (2 <= 7)%nat
  /\ Forall (fun row => length row = 7%nat) haishen_rows
  /\ Forall (Forall no_leading_space) haishen_rows
  /\ exists out, add_missing_dates_and_empty_cells haishen_rows = Ok out.
Proof.
  assert (2 <= 7)%nat as Hn by lia.
  assert (Forall (fun row => length row = 7%nat) haishen_rows) as Hlen
    by (repeat constructor).
  assert (Forall (Forall no_leading_space) haishen_rows) as Hclean
    by (repeat constructor).
  split_and!; [exact Hn | exact Hlen | exact Hclean |].
  apply (normalizes_rectangular haishen_rows 7 Hn Hlen Hclean).
Defined.

Lemma fill_cells_error lr i row e :
  fill_cells lr i row = Raise e -> e = IndexError.
Proof.
  revert i. induction row as [|c row IH]; intros i; simpl; [done|].
  destruct (fill_cell lr i c) as [v|e'] eqn:Hv; simpl.
  - destruct (fill_cells lr (S i) row) as [vs|e'] eqn:Hvs; simpl; [done|].
    intros [= <-]. by eapply IH.
  - intros [= <-]. unfold fill_cell in Hv.
    destruct (String.eqb c NA); [done|]. destruct (str_truthy c); [done|].
    destruct lr as [[|p prev]|]; [done | | done].
    unfold index in Hv. destruct ((p :: prev) !! i); congruence.
Qed.

Lemma index_error {A} (l : list A) i e : index l i = Raise e -> e = IndexError.
Proof. unfold index. destruct (l !! i); congruence. Qed.

Lemma fix_datetime_error ld row e :
  fix_datetime ld row = Raise e -> e = IndexError.
Proof.
  unfold fix_datetime. destruct (index row 1) as [x|e'] eqn:Hx; simpl.
  - destruct (contains_space x).
    + destruct (index (split x) 0) as [d|e'] eqn:Hd; simpl; [done|].
      intros [= <-]. by eapply index_error.
    + by destruct ld as [d|]; [destruct (str_truthy d)|].
  - intros [= <-]. by eapply index_error.
Qed.

Lemma normalize_rows_error ld lr data e :
  normalize_rows ld lr data = Raise e -> e = IndexError.
Proof.
  revert ld lr. induction data as [|r data IH]; intros ld lr; simpl; [done|].
  destruct (fix_datetime ld r) as [[ld' row1]|e'] eqn:Hfix; simpl.
  2: { intros [= <-]. by eapply fix_datetime_error. }
  destruct (fill_cells lr 0 row1) as [row2|e'] eqn:Hfill; simpl.
  2: { intros [= <-]. by eapply fill_cells_error. }
  destruct (normalize_rows ld' (Some row2) data) as [rest|e'] eqn:Hrest;
    simpl; [done|].
  intros [= <-]. by eapply IH.
Qed.

(** X6.  The normaliser raises nothing but [IndexError], and it raises it
    whenever some row has fewer than two cells. *)
Theorem short_row_raises data row :
  row ∈ data -> (length row < 2)%nat ->
  add_missing_dates_and_empty_cells data = Raise IndexError
  /\ forall data' e,
       add_missing_dates_and_empty_cells data' = Raise e -> e = IndexError.
Proof.
  intros Hrow Hlen.
  assert (forall data' e,
            add_missing_dates_and_empty_cells data' = Raise e ->
            e = IndexError) as Honly.
  { intros [|row0 data'] e; [done|]. apply normalize_rows_error. }
  split; [|done].
  destruct (add_missing_dates_and_empty_cells data) as [out|e] eqn:Hn.
  - exfalso. apply list_elem_of_lookup_1 in Hrow as [j Hj].
    destruct data as [|row0 data]; [done|].
    unfold add_missing_dates_and_empty_cells in Hn.
    assert (exists row', (mark_empty row0 :: data) !! j = Some row'
                         /\ length row' = length row) as (row' & Hj' & Hlen').
    { destruct j as [|j]; simpl in *.
      - injection Hj as <-. eexists. split; [done|].
        unfold mark_empty. by rewrite length_fmap.
      - by exists row. }
    destruct (normalize_rows_lookup _ _ _ _ Hn _ _ Hj')
      as (ld_j & ld_j' & row1 & orow & _ & Hf & _).
    apply fix_datetime_inv in Hf as (x & Hx%lookup_lt_Some & _). lia.
  - f_equal. by eapply Honly.
Qed.

Lemma short_row_raises_witness :
  ["0"] ∈ [["0"; "2020-01-01 00:00:00"]; ["0"]] /\ (length ["0"] < 2)%nat
  /\ add_missing_dates_and_empty_cells [["0"; "2020-01-01 00:00:00"]; ["0"]]
     = Raise IndexError.
Proof.
  assert (["0"] ∈ [["0"; "2020-01-01 00:00:00"]; ["0"]]) as Hrow
    by (rewrite !elem_of_cons; auto).
  assert (length ["0"] < 2)%nat as Hlen by (simpl; lia).
  split_and!; [exact Hrow | exact Hlen |].
  apply (short_row_raises _ _ Hrow Hlen).
Defined.

(** *** Cells as the scraper delivers them *)

Lemma list_ascii_of_string_app a b :
  list_ascii_of_string (a +:+ b)
  = (list_ascii_of_string a ++ list_ascii_of_string b)%list.
Proof. induction a as [|c a IH]; simpl; [done|]. by rewrite IH. Qed.

Lemma string_of_list_ascii_app l1 l2 :
  string_of_list_ascii (l1 ++ l2)
  = string_of_list_ascii l1 +:+ string_of_list_ascii l2.
Proof. induction l1 as [|c l1 IH]; simpl; [done|]. by rewrite IH. Qed.

Lemma reverse_app a b : reverse (a +:+ b) = reverse b +:+ reverse a.
Proof.
  unfold reverse.
  by rewrite list_ascii_of_string_app, rev_app_distr, string_of_list_ascii_app.
Qed.

Lemma reverse_involutive s : reverse (reverse s) = s.
Proof.
  unfold reverse.
  by rewrite list_ascii_of_string_of_list_ascii, rev_involutive,
    string_of_list_ascii_of_string.
Qed.

Lemma lstrip_suffix s : exists p, s = p +:+ lstrip s.
Proof.
  induction s as [|c s [p IH]]; [by exists ""|]. simpl.
  destruct (isspace c); [|by exists ""].
  exists (String c p). change (String c s = String c (p +:+ lstrip s)).
  by rewrite <- IH.
Qed.

Lemma lstrip_no_leading_space s : no_leading_space (lstrip s).
Proof.
  unfold no_leading_space. induction s as [|c s IH]; simpl; [done|].
  destruct (isspace c) eqn:Hc; [done|]. simpl. by rewrite Hc.
Qed.

(** [strip] leaves a prefix of what [lstrip] leaves. *)
Lemma strip_prefix t : exists q, lstrip t = strip t +:+ q.
Proof.
  unfold strip. destruct (lstrip_suffix (reverse (lstrip t))) as [p Hp].
  exists (reverse p). rewrite <- reverse_app, <- Hp.
  by rewrite reverse_involutive.
Qed.

Lemma strip_no_leading_space t : no_leading_space (strip t).
Proof.
  destruct (strip_prefix t) as [q Hq].
  pose proof (lstrip_no_leading_space t) as Hl. rewrite Hq in Hl.
  destruct (strip t) as [|c r]; [done|].
  apply no_leading_space_head in Hl. unfold no_leading_space. simpl.
  by rewrite Hl.
Qed.

Section ScraperProperties.
Context `{Platform}.

Lemma scrape_fourth_table_inv link w table w' :
  scrape_fourth_table link w = (Ok (Some table), w') ->
  exists body soup t,
    requests_get link = Ok (200, body)
    /\ BeautifulSoup (Some body) = Ok soup
    /\ find_all Tables soup !! 3%nat = Some t
    /\ table = (fun row => (fun c => strip (text c)) <$> find_all TdTh row)
               <$> drop 2 (find_all Tr t)
    /\ w' = mkWorld (files w) (dirs w) (link :: requested w).
Proof.
  unfold scrape_fourth_table. rewrite M_bind_at. unfold http_get.
  destruct (requests_get link) as [[status body]|e] eqn:Hget; [simpl | done].
  destruct (Z.eqb_spec status 200) as [->|]; [simpl | done].
  rewrite M_bind_at. unfold lift at 1.
  destruct (BeautifulSoup (Some body)) as [soup|e] eqn:Hsoup; [|done].
  destruct (length (find_all Tables soup) <? 4)%nat; [done|].
  rewrite M_bind_at. unfold lift at 1.
  destruct (index (find_all Tables soup) 3) as [t|e] eqn:Ht; [|done].
  intros [= <- <-]. apply index_Ok in Ht. by exists body, soup, t.
Qed.

(** X7.  The cells of a scraped table do not start with whitespace, so a
    scraped table whose rows all have the same number of cells, two or
    more, is always normalised without an exception. *)
Theorem scraped_table_normalizes link w table w' n :
  scrape_fourth_table link w = (Ok (Some table), w') ->
  (2 <= n)%nat ->
  Forall (fun row => length row = n) table ->
  Forall (Forall no_leading_space) table
  /\ exists out, add_missing_dates_and_empty_cells table = Ok out.
Proof.
  intros Hscrape Hn Hlen.
  assert (Forall (Forall no_leading_space) table) as Hclean.
  { apply scrape_fourth_table_inv in Hscrape
      as (body & soup & t & _ & _ & _ & -> & _).
    apply Forall_fmap, Forall_forall. intros row _. simpl.
    apply Forall_fmap, Forall_forall. intros c _. simpl.
    apply strip_no_leading_space. }
  split; [done|]. destruct table as [|row0 table]; [by eexists|].
  unfold add_missing_dates_and_empty_cells.
  by eapply normalize_marked_returns.
Qed.

End ScraperProperties.

(** ** The record builder *)

Section BuilderMore.
Context `{Platform}.


Lemma filter_time_no_month month c :
  month_truthy month = false -> is_Some (filter_time month c).
Proof.
  intros Hm. unfold filter_time. destruct c as [t|]; [|by eexists].
  destruct (str_truthy t); [|by eexists].
  destruct (strptime t); [|by eexists]. rewrite Hm. by eexists.
Qed.

(** X9.  Without a month filter (no month, an empty text, or 0) no row is
    dropped: the path has one point for each row, in order. *)
Theorem unfiltered_path_complete month rows path :
  month_truthy month = false ->
  build_path month rows = Ok path ->
  Forall2 made_from rows path /\ length path = length rows.
Proof.
  intros Hm Hpath.
  assert (Forall2 made_from rows path) as Hmade.
  { revert path Hpath. induction rows as [|row rows IH]; intros path Hpath.
    - injection Hpath as <-. constructor.
    - rewrite build_path_cons in Hpath. bind_inv Hpath r Hr.
      bind_inv Hpath path' Hpath'. injection Hpath as <-.
      unfold convert_row in Hr. bind_inv Hr c Hc.
      destruct (filter_time_no_month month c Hm) as [t Ht].
      rewrite Ht in Hr. bind_inv Hr p Hp. injection Hr as <-.
      constructor; [by exists t | by apply IH]. }
  split; [done|]. symmetry. by eapply Forall2_length.
Qed.



Lemma make_point_short t row :
  (length row < 7)%nat -> make_point t row = Raise IndexError.
Proof.
  intros Hlen. unfold make_point.
  do 7 (destruct row as [|? row]; [reflexivity|]).
  simpl in Hlen. lia.
Qed.

(** X11.  A row of fewer than seven cells never gives a point: either the
    month filter skips it, or the builder raises [IndexError]; without a
    month filter it always raises. *)
Theorem short_row_gives_no_point month row :
  (length row < 7)%nat ->
  (convert_row month row = Ok None
   \/ convert_row month row = Raise IndexError)
  /\ (month_truthy month = false -> convert_row month row = Raise IndexError).
Proof.
  intros Hlen. unfold convert_row.
  destruct (index row 1) as [c|e] eqn:Hc; simpl.
  - split.
    + destruct (filter_time month c) as [t|]; [right | by left].
      by rewrite make_point_short.
    + intros Hm. destruct (filter_time_no_month month c Hm) as [t ->].
      by rewrite make_point_short.
  - apply index_error in Hc as ->. split; [by right | done].
Qed.

(** X12.  The working name of a heading with two tokens or more is its
    second-to-last token, a non-empty text without a space. *)
Theorem working_name_second_to_last typhoon_name l a b :
  split typhoon_name = (l ++ [a; b])%list ->
  working_name typhoon_name = a
  /\ str_truthy a = true /\ contains_space a = false.
Proof.
  intros Hsplit.
  assert (a ∈ split typhoon_name) as Ha.
  { rewrite Hsplit. apply elem_of_app. right. apply elem_of_cons. by left. }
  split_and!.
  - unfold working_name. rewrite Hsplit, length_app.
    replace (length l + length [a; b])%nat with (S (S (length l)))
      by (simpl; lia).
    simpl. rewrite Nat.sub_0_r.
    by rewrite (list_lookup_middle l [b] a (length l) eq_refl).
  - by eapply split_from_truthy.
  - by eapply split_from_no_space.
Qed.

Lemma working_name_unknown typhoon_name :
  (length (split typhoon_name) < 2)%nat ->
  working_name typhoon_name = "UNKNOWN".
Proof.
  intros Hlen. unfold working_name.
  destruct (2 <=? length (split typhoon_name))%nat eqn:Hle; [|done].
  apply Nat.leb_le in Hle. lia.
Qed.

(** X13.  A start time is a whole minute of local time: the seconds of the
    first datetime cell play no part in it. *)
Theorem start_time_whole_minute first ts :
  start_time_of first = Ok (Some ts) ->
  exists s d,
    first !! 1%nat = Some (Some s) /\ strptime s = Some d
    /\ ts = utc_seconds (replace_second0 d) - utcoffset (replace_second0 d)
    /\ utc_seconds (replace_second0 d) mod 60 = 0.
Proof.
  unfold start_time_of. intros Hs. bind_inv Hs c Hc. apply index_Ok in Hc.
  destruct c as [s|]; [|done].
  destruct (strptime s) as [d|] eqn:Hd; [|done]. injection Hs as <-.
  exists s, d. split_and!; [done..|].
  unfold utc_seconds, replace_second0. simpl.
  rewrite Z.add_0_r.
  replace (days_from_civil (dt_year d) (dt_month d) (dt_day d) * 86400
           + dt_hour d * 3600 + dt_minute d * 60)
    with ((days_from_civil (dt_year d) (dt_month d) (dt_day d) * 1440
           + dt_hour d * 60 + dt_minute d) * 60) by lia.
  apply Z_mod_mult.
Qed.

End BuilderMore.


Lemma unfiltered_path_complete_witness :
  month_truthy (Some (MonthInt 0)) = false
  /\ @build_path sample_platform (Some (MonthInt 0)) [bare_row; hurricane_row]
     = Ok [bare_point; hurricane_point]
  /\ length [bare_point; hurricane_point] = length [bare_row; hurricane_row].
Proof.
  assert (@build_path sample_platform (Some (MonthInt 0))
            [bare_row; hurricane_row]
          = Ok [bare_point; hurricane_point]) as Hpath by reflexivity.
  split; [reflexivity|]. split; [exact Hpath|].
  apply (@unfiltered_path_complete sample_platform (Some (MonthInt 0))
           [bare_row; hurricane_row] [bare_point; hurricane_point]
           eq_refl Hpath).
Defined.


Lemma short_row_gives_no_point_witness :
  (length [Some "0"; Some "2020-06-01 00:00:00"; Some "TS"] < 7)%nat
  /\ @convert_row sample_platform None
       [Some "0"; Some "2020-06-01 00:00:00"; Some "TS"]
     = Raise IndexError.
Proof.
  assert (length [Some "0"; Some "2020-06-01 00:00:00"; Some "TS"] < 7)%nat
    as Hlen by (simpl; lia).
  split; [exact Hlen|].
  by apply (@short_row_gives_no_point sample_platform None _ Hlen).
Defined.

Lemma working_name_second_to_last_witness :
  split " Typhoon MAYSAK 2020 " = (["Typhoon"] ++ ["MAYSAK"; "2020"])%list
  /\ working_name " Typhoon MAYSAK 2020 " = "MAYSAK".
Proof.
  split; [reflexivity|].
  by apply (working_name_second_to_last " Typhoon MAYSAK 2020 "
              ["Typhoon"] "MAYSAK" "2020" eq_refl).
Defined.

Lemma start_time_whole_minute_witness :
  @start_time_of sample_platform hurricane_row = Ok (Some 1590969600)
  /\ 1590969600 mod 60 = 0.
Proof.
  assert (@start_time_of sample_platform hurricane_row
          = Ok (Some 1590969600)) as Hs by reflexivity.
  split; [exact Hs|].
  destruct (@start_time_whole_minute sample_platform hurricane_row
              1590969600 Hs) as (s & d & _ & _ & Hts & Hmin).
  unfold utcoffset in Hts. simpl in Hts. rewrite Z.sub_0_r in Hts.
  by rewrite Hts.
Defined.

Lemma scraped_table_normalizes_witness :
  @scrape_fourth_table sample_platform haishen_link
    (after_requests [haishen_link])
  = (Ok (Some haishen_rows), after_requests [haishen_link; haishen_link])
  /\ (2 <= 7)%nat
  /\ Forall (fun row => length row = 7%nat) haishen_rows
  /\ exists out, add_missing_dates_and_empty_cells haishen_rows = Ok out.
Proof.
  assert (2 <= 7)%nat as Hn by lia.
  assert (Forall (fun row => length row = 7%nat) haishen_rows) as Hlen
    by (repeat constructor).
  split_and!; [reflexivity | exact Hn | exact Hlen |].
  apply (@scraped_table_normalizes sample_platform haishen_link
           (after_requests [haishen_link]) haishen_rows
           (after_requests [haishen_link; haishen_link]) 7 eq_refl Hn Hlen).
Defined.

(** ** The cache file of a key *)

Lemma append_inv_head (p a b : string) : p +:+ a = p +:+ b -> a = b.
Proof.
  induction p as [|c p IH]; [done|].
  intros Heq. apply IH.
  change (String c (p +:+ a) = String c (p +:+ b)) in Heq. congruence.
Qed.

Lemma append_inv_tail (a b q : string) : a +:+ q = b +:+ q -> a = b.
Proof.
  intros Heq. apply (f_equal reverse) in Heq. rewrite !reverse_app in Heq.
  apply append_inv_head in Heq. apply (f_equal reverse) in Heq.
  by rewrite !reverse_involutive in Heq.
Qed.

Lemma path_join_inv folder a b :
  starts_with_slash a = false -> starts_with_slash b = false ->
  path_join folder a = path_join folder b -> a = b.
Proof.
  unfold path_join. intros -> ->.
  destruct (negb (str_truthy folder) || starts_with_slash (reverse folder)).
  - apply append_inv_head.
  - intros Heq. by do 2 apply append_inv_head in Heq.
Qed.

Lemma known_basin_cases basin_name abbr :
  BASIN_ABBREVIATIONS !! basin_name = Some abbr ->
  (basin_name, abbr)
  ∈ [ ("Northern Atlantic", "na"); ("Eastern Pacific", "ep");
      ("Western Pacific", "wp"); ("Northern Indian", "ni");
      ("Southern Indian", "si"); ("Southern Pacific", "sp") ].
Proof. apply elem_of_list_to_map_2. Qed.

Lemma cache_file_distinct year1 basin1 year2 basin2 folder_path :
  is_Some (BASIN_ABBREVIATIONS !! basin1) ->
  is_Some (BASIN_ABBREVIATIONS !! basin2) ->
  cache_file year1 basin1 folder_path = cache_file year2 basin2 folder_path ->
  year1 = year2 /\ basin1 = basin2.
Proof.
  intros [a1 H1] [a2 H2]. unfold cache_file. rewrite H1, H2. simpl.
  apply known_basin_cases in H1, H2.
  repeat (apply elem_of_cons in H1 as [H1|H1]; [injection H1 as -> ->|]);
    [..|by apply elem_of_nil in H1];
    (repeat (apply elem_of_cons in H2 as [H2|H2]; [injection H2 as -> ->|]);
     [..|by apply elem_of_nil in H2]);
    intros Heq%path_join_inv; try reflexivity;
    cbv [String.append] in Heq; try discriminate Heq;
    injection Heq as Heq; apply append_inv_tail in Heq; by subst.
Qed.

(** X14.  Two different keys with recognised basins never share a cache
    file. *)
Theorem cache_file_injective year1 basin1 year2 basin2 folder_path :
  is_Some (BASIN_ABBREVIATIONS !! basin1) ->
  is_Some (BASIN_ABBREVIATIONS !! basin2) ->
  (year1, basin1) <> (year2, basin2) ->
  cache_file year1 basin1 folder_path <> cache_file year2 basin2 folder_path.
Proof.
  intros Hk1 Hk2 Hne Heq.
  apply cache_file_distinct in Heq as [-> ->]; done.
Qed.

Lemma cache_file_injective_witness :
  is_Some (BASIN_ABBREVIATIONS !! "Western Pacific")
  /\ is_Some (BASIN_ABBREVIATIONS !! "Northern Atlantic")
  /\ ("2020", "Western Pacific") <> ("2020", "Northern Atlantic")
  /\ cache_file "2020" "Western Pacific" "data"
     <> cache_file "2020" "Northern Atlantic" "data".
Proof.
  assert (is_Some (BASIN_ABBREVIATIONS !! "Western Pacific")) as Hk1
    by (by eexists).
  assert (is_Some (BASIN_ABBREVIATIONS !! "Northern Atlantic")) as Hk2
    by (by eexists).
  assert (("2020", "Western Pacific") <> ("2020", "Northern Atlantic"))
    as Hne by discriminate.
  split_and!; [exact Hk1 | exact Hk2 | exact Hne |].
  apply (cache_file_injective "2020" "Western Pacific" "2020"
           "Northern Atlantic" "data" Hk1 Hk2 Hne).
Defined.

Section CacheMore.
Context `{Platform}.

(** X15.  Saving under one key leaves what loading under another key
    returns as it was, when both basins are recognised. *)
Theorem save_keeps_other_keys data year1 basin1 year2 basin2 folder_path w :
  is_Some (BASIN_ABBREVIATIONS !! basin1) ->
  is_Some (BASIN_ABBREVIATIONS !! basin2) ->
  (year1, basin1) <> (year2, basin2) ->
  (load_cache year2 basin2 folder_path
     (save_cache data year1 basin1 folder_path w).2).1
  = (load_cache year2 basin2 folder_path w).1.
Proof.
  intros Hk1 Hk2 Hne. unfold load_cache, save_cache. simpl.
  rewrite lookup_insert_ne.
  - destruct (path_exists w folder_path); simpl;
      destruct (files w !! _) as [contents|]; [|done| |done];
      by destruct (json_loads contents).
  - intros Heq.
    apply cache_file_distinct in Heq as [-> ->]; done.
Qed.

(** X16.  Basins outside the table share the abbreviation "unknown": what
    is saved for one of them in a year is what loading returns for any
    other of them in that year. *)
Theorem unknown_basins_share_cache data year basin1 basin2 folder_path w :
  BASIN_ABBREVIATIONS !! basin1 = None ->
  BASIN_ABBREVIATIONS !! basin2 = None ->
  json_loads (json_dumps data) = Ok data ->
  cache_file year basin1 folder_path = cache_file year basin2 folder_path
  /\ (load_cache year basin2 folder_path
        (save_cache data year basin1 folder_path w).2).1
     = Ok (Some data).
Proof.
  intros H1 H2 Hjson.
  assert (cache_file year basin1 folder_path
          = cache_file year basin2 folder_path) as Heq.
  { unfold cache_file. by rewrite H1, H2. }
  split; [done|]. unfold load_cache, save_cache. simpl.
  by rewrite <- Heq, lookup_insert_eq, Hjson.
Qed.

Lemma path_exists_after_save data year basin_name folder_path w :
  path_exists (save_cache data year basin_name folder_path w).2 folder_path
  = true.
Proof.
  unfold save_cache. simpl.
  destruct (path_exists w folder_path) eqn:Hex; unfold path_exists in *;
    simpl.
  - apply orb_true_iff in Hex as [Hd|Hf]; [by rewrite Hd|].
    apply orb_true_iff. right. apply bool_decide_eq_true.
    apply bool_decide_eq_true in Hf.
    destruct (decide (cache_file year basin_name folder_path = folder_path))
      as [->|Hne]; [by rewrite lookup_insert_eq|].
    by rewrite lookup_insert_ne.
  - apply orb_true_iff. left. apply bool_decide_eq_true. set_solver.
Qed.

(** X17.  Saving overwrites: after two saves under one key the world is
    the world after the second save alone. *)
Theorem last_save_wins data1 data2 year basin_name folder_path w :
  (save_cache data2 year basin_name folder_path
     (save_cache data1 year basin_name folder_path w).2).2
  = (save_cache data2 year basin_name folder_path w).2.
Proof.
  pose proof (path_exists_after_save data1 year basin_name folder_path w)
    as Hex.
  unfold save_cache at 1. rewrite Hex. unfold save_cache. simpl.
  by rewrite insert_insert_eq.
Qed.

End CacheMore.

Lemma save_keeps_other_keys_witness :
  is_Some (BASIN_ABBREVIATIONS !! "Western Pacific")
  /\ is_Some (BASIN_ABBREVIATIONS !! "Northern Atlantic")
  /\ ("2020", "Western Pacific") <> ("2020", "Northern Atlantic")
  /\ (@load_cache sample_platform "2020" "Northern Atlantic" "data"
        (@save_cache sample_platform june_value "2020" "Western Pacific"
           "data" empty_world).2).1
     = (@load_cache sample_platform "2020" "Northern Atlantic" "data"
          empty_world).1.
Proof.
  assert (is_Some (BASIN_ABBREVIATIONS !! "Western Pacific")) as Hk1
    by (by eexists).
  assert (is_Some (BASIN_ABBREVIATIONS !! "Northern Atlantic")) as Hk2
    by (by eexists).
  assert (("2020", "Western Pacific") <> ("2020", "Northern Atlantic"))
    as Hne by discriminate.
  split_and!; [exact Hk1 | exact Hk2 | exact Hne |].
  apply (@save_keeps_other_keys sample_platform june_value "2020"
           "Western Pacific" "2020" "Northern Atlantic" "data" empty_world
           Hk1 Hk2 Hne).
Defined.

Lemma unknown_basins_share_cache_witness :
  BASIN_ABBREVIATIONS !! "Arctic" = None
  /\ BASIN_ABBREVIATIONS !! "Baltic" = None
  /\ @json_loads sample_platform (@json_dumps sample_platform june_value)
     = Ok june_value
  /\ cache_file "2020" "Arctic" "data" = cache_file "2020" "Baltic" "data"
  /\ (@load_cache sample_platform "2020" "Baltic" "data"
        (@save_cache sample_platform june_value "2020" "Arctic" "data"
           empty_world).2).1
     = Ok (Some june_value).
Proof.
  split_and!; [reflexivity | reflexivity | reflexivity | |];
    apply (@unknown_basins_share_cache sample_platform june_value "2020"
             "Arctic" "Baltic" "data" empty_world eq_refl eq_refl eq_refl).
Defined.

(** ** The driver: files, requests, and the link map *)

Section PipelineMore.
Context `{Platform}.

Lemma keeps_files_ret {A} (a : A) : keeps_files (mret a : M A).
Proof. by intros w. Qed.

Lemma keeps_files_lift {A} (r : result A) : keeps_files (lift r).
Proof. by intros w. Qed.

Lemma keeps_files_bind {A B} (m : M A) (f : A -> M B) :
  keeps_files m -> (forall a, keeps_files (f a)) -> keeps_files (m ≫= f).
Proof.
  intros Hm Hf w. destruct (Hm w) as [Hfiles Hdirs]. rewrite M_bind_at.
  destruct (m w) as [[a|e] w1]; simpl in *; [|done].
  destruct (Hf a w1) as [Hfiles' Hdirs']. split; congruence.
Qed.

Lemma keeps_files_http_get url : keeps_files (http_get url).
Proof. by intros w. Qed.

Create HintDb files.

#[local] Hint Resolve keeps_files_ret keeps_files_lift keeps_files_http_get
  : files.

Ltac keeps_files_step :=
  match goal with
  | |- keeps_files (_ ≫= _) => apply keeps_files_bind; [|intros ?]
  | |- keeps_files (if ?b then _ else _) => destruct b
  | |- keeps_files (match ?x with _ => _ end) => destruct x
  | |- keeps_files _ => solve [auto with files]
  end.

Lemma keeps_files_fetch_year_page year : keeps_files (fetch_year_page year).
Proof. unfold fetch_year_page. repeat keeps_files_step. Qed.

Lemma keeps_files_scrape_storm month link :
  keeps_files (scrape_storm month link).
Proof.
  unfold scrape_storm, get_typhoon_name_from_link, scrape_fourth_table.
  repeat keeps_files_step.
Qed.

Lemma keeps_files_scrape_storms month links :
  keeps_files (scrape_storms month links).
Proof.
  induction links as [|link links IH]; simpl; [auto with files|].
  apply keeps_files_bind; [apply keeps_files_scrape_storm | intros r].
  apply keeps_files_bind; [done | intros all]. auto with files.
Qed.

(** The two ways [save_data_as_json] ends: with the dataset of the storms
    scraped, saved in the world the scraping left; or with anything else,
    and the files as they were. *)
Lemma save_data_as_json_inv year basin_name month folder_path w r w' :
  save_data_as_json year basin_name month folder_path w = (r, w') ->
  (exists all w2,
     r = Ok (Some (dataset_value all))
     /\ files w2 = files w /\ dirs w2 = dirs w
     /\ w' = (save_cache (dataset_value all) year basin_name folder_path
                w2).2)
  \/ ((forall d, r <> Ok (Some d))
      /\ files w' = files w /\ dirs w' = dirs w).
Proof.
  change (save_data_as_json year basin_name month folder_path w)
    with ((fetch_year_page year
           ≫= after_year_page year basin_name month folder_path) w).
  rewrite M_bind_at.
  destruct (keeps_files_fetch_year_page year w) as [Hf1 Hd1].
  destruct (fetch_year_page year w) as [[html|e] w1]; simpl in *.
  2: { intros [= <- <-]. by right. }
  unfold after_year_page. rewrite M_bind_at. unfold lift at 1.
  destruct (extract_links_from_second_table html) as [[links_by_basin|]|e].
  2, 3: intros [= <- <-]; by right.
  destruct (bool_decide (links_by_basin = ∅)).
  { intros [= <- <-]. by right. }
  destruct (links_by_basin !! basin_name) as [links|].
  2: { intros [= <- <-]. by right. }
  rewrite M_bind_at.
  destruct (keeps_files_scrape_storms month links w1) as [Hf2 Hd2].
  destruct (scrape_storms month links w1) as [[all|e] w2]; simpl in *.
  2: { intros [= <- <-]. right. split_and!; [done | congruence..]. }
  rewrite M_bind_at. intros [= <- <-]. left. exists all, w2.
  split_and!; [done | congruence.. | done].
Qed.

(** X18.  The cache key has no month: once a scrape has returned a dataset
    with a storm in it, a call for the same year and basin returns that
    dataset from the cache, with no request, whatever month it asks
    for. *)
Theorem cached_after_scrape year basin_name month month' folder_path w d w' :
  save_data_as_json year basin_name month folder_path w = (Ok (Some d), w') ->
  truthy d = true ->
  json_loads (json_dumps d) = Ok d ->
  scrape_typhoon_data year basin_name month' folder_path w' = (Ok (Some d), w').
Proof.
  intros Hsave Htruthy Hjson.
  apply save_data_as_json_inv in Hsave
    as [(all & w2 & [= ->] & _ & _ & ->)|(Hno & _)];
    [|by destruct (Hno d)].
  apply scrape_hit. unfold cache_hit, save_cache. simpl.
  by rewrite lookup_insert_eq, Hjson, Htruthy.
Qed.


(** X20.  A basin that is not a key of the link map ends the scrape after
    the request for the year page: the result is [None], no storm page is
    requested, nothing is written. *)
Theorem unknown_basin_stops year basin_name month folder_path w body
    links_by_basin :
  requests_get (BASE_URL +:+ "?name=YearBasin-" +:+ year) = Ok (200, body) ->
  extract_links_from_second_table (Some body) = Ok (Some links_by_basin) ->
  links_by_basin !! basin_name = None ->
  save_data_as_json year basin_name month folder_path w
  = (Ok None,
     mkWorld (files w) (dirs w)
       ((BASE_URL +:+ "?name=YearBasin-" +:+ year) :: requested w)).
Proof.
  intros Hget Hlinks Hbasin.
  change (save_data_as_json year basin_name month folder_path w)
    with ((fetch_year_page year
           ≫= after_year_page year basin_name month folder_path) w).
  unfold fetch_year_page. rewrite M_bind_assoc_at, M_bind_at.
  unfold http_get at 1. rewrite Hget. simpl.
  rewrite M_bind_at, M_ret_at. unfold after_year_page.
  rewrite M_bind_at. unfold lift at 1. rewrite Hlinks, Hbasin.
  by destruct (bool_decide (links_by_basin = ∅)).
Qed.

End PipelineMore.

Lemma cached_after_scrape_witness :
  (@save_data_as_json sample_platform "2020" "Western Pacific" june "data"
     empty_world).1
  = Ok (Some june_value)
  /\ @truthy sample_platform june_value = true
  /\ @json_loads sample_platform (@json_dumps sample_platform june_value)
     = Ok june_value
  /\ (@scrape_typhoon_data sample_platform "2020" "Western Pacific" None "data"
        (@save_data_as_json sample_platform "2020" "Western Pacific" june
           "data" empty_world).2).1
     = Ok (Some june_value).
Proof.
  assert (@save_data_as_json sample_platform "2020" "Western Pacific" june
            "data" empty_world
          = (Ok (Some june_value),
             (@save_data_as_json sample_platform "2020" "Western Pacific"
                june "data" empty_world).2)) as Hsave.
  { apply injective_projections; [by vm_compute | reflexivity]. }
  split_and!; [by vm_compute | reflexivity | reflexivity |].
  by rewrite (@cached_after_scrape sample_platform "2020" "Western Pacific"
                june None "data" empty_world june_value _ Hsave eq_refl
                eq_refl).
Defined.


Lemma unknown_basin_stops_witness :
  @requests_get sample_platform (BASE_URL +:+ "?name=YearBasin-" +:+ "2021")
  = Ok (200, year_url "2021")
  /\ @extract_links_from_second_table sample_platform (Some (year_url "2021"))
     = Ok (Some links_2021)
  /\ links_2021 !! "Southern Pacific" = None
  /\ @save_data_as_json sample_platform "2021" "Southern Pacific" None "data"
       empty_world
     = (Ok None, after_requests [year_url "2021"]).
Proof.
  assert (@extract_links_from_second_table sample_platform
            (Some (year_url "2021"))
          = Ok (Some links_2021)) as Hlinks by (by vm_compute).
  assert (links_2021 !! "Southern Pacific" = None) as Hbasin
    by (by vm_compute).
  split_and!; [reflexivity | exact Hlinks | exact Hbasin |].
  apply (@unknown_basin_stops sample_platform "2021" "Southern Pacific"
           None "data" empty_world (year_url "2021") links_2021 eq_refl
           Hlinks Hbasin).
Defined.

Section LinkMap.
Context `{Platform}.

Lemma add_links_inv basins i links m m' :
  add_links basins i links m = Ok m' ->
  base.dom m' = base.dom m
  /\ (map_Forall (fun _ l => Forall absolute l) m ->
      map_Forall (fun _ l => Forall absolute l) m').
Proof.
  revert m. induction links as [|link links IH]; intros m Hadd; simpl in Hadd.
  - by injection Hadd as <-.
  - bind_inv Hadd basin Hbasin.
    destruct (IH _ Hadd) as [Hdom Hall]. split.
    + by rewrite Hdom, dom_alter_L.
    + intros Hm. apply Hall. intros k l. rewrite lookup_alter.
      case_decide as Hk; [|by apply Hm]. subst k.
      destruct (m !! basin) as [l0|] eqn:Hl0; simpl; [|done].
      intros [= <-]. apply Forall_app. split; [by eapply Hm|].
      constructor; [by eexists | constructor].
Qed.

Lemma add_cells_inv basins i cells m m' :
  add_cells basins i cells m = Ok m' ->
  base.dom m' = base.dom m
  /\ (map_Forall (fun _ l => Forall absolute l) m ->
      map_Forall (fun _ l => Forall absolute l) m').
Proof.
  revert i m. induction cells as [|c cells IH]; intros i m Hadd;
    simpl in Hadd.
  - by injection Hadd as <-.
  - bind_inv Hadd m1 Hm1. destruct (add_links_inv _ _ _ _ _ Hm1) as [Hd1 Ha1].
    destruct (IH _ _ Hadd) as [Hd2 Ha2]. split; [congruence | auto].
Qed.

Lemma add_rows_inv basins rows m m' :
  add_rows basins rows m = Ok m' ->
  base.dom m' = base.dom m
  /\ (map_Forall (fun _ l => Forall absolute l) m ->
      map_Forall (fun _ l => Forall absolute l) m').
Proof.
  revert m. induction rows as [|row rows IH]; intros m Hadd; simpl in Hadd.
  - by injection Hadd as <-.
  - bind_inv Hadd m1 Hm1. destruct (add_cells_inv _ _ _ _ _ Hm1) as [Hd1 Ha1].
    destruct (IH _ Hadd) as [Hd2 Ha2]. split; [congruence | auto].
Qed.

(** X21.  The link map has one key for each text of the header row of the
    second layout table, and no other key; and every URL in it starts with
    the base of the storm pages. *)
Theorem link_map_keys_and_urls html links_by_basin :
  extract_links_from_second_table html = Ok (Some links_by_basin) ->
  (exists soup table first_tr rest,
     BeautifulSoup html = Ok soup
     /\ find_all LayoutTables soup !! 1%nat = Some table
     /\ find_all Tr table = first_tr :: rest
     /\ base.dom links_by_basin
        = list_to_set ((fun header => strip (text header))
                       <$> find_all Td first_tr))
  /\ forall basin links,
       links_by_basin !! basin = Some links -> Forall absolute links.
Proof.
  unfold extract_links_from_second_table. intros Hex.
  bind_inv Hex soup Hsoup.
  destruct (length (find_all LayoutTables soup) <? 2)%nat; [done|].
  bind_inv Hex table Htable. apply index_Ok in Htable.
  destruct (find_all Tr table) as [|first_tr rest] eqn:Htr; [done|].
  apply fmap_Ok in Hex as (m & Hadd & [= ->]).
  apply add_rows_inv in Hadd as [Hdom Hall]. split.
  - exists soup, table, first_tr, rest. split_and!; [done..|].
    rewrite Hdom, dom_list_to_map_L. f_equal.
    rewrite <- list_fmap_compose. apply list_fmap_id.
  - apply Hall. intros k l Hl. apply elem_of_list_to_map_2 in Hl.
    apply list_elem_of_fmap in Hl as (b & [= _ ->] & _). constructor.
Qed.

(** *** Requests *)

Lemma requested_get_typhoon_name_from_link link w :
  requested (get_typhoon_name_from_link link w).2 = link :: requested w.
Proof.
  unfold get_typhoon_name_from_link. rewrite M_bind_at. unfold http_get.
  destruct (requests_get link) as [[status body]|e]; [simpl | done].
  destruct (status =? 200); [|done]. rewrite M_bind_at. unfold lift at 1.
  destruct (BeautifulSoup (Some body)) as [soup|e]; [|done].
  by destruct (find_all H1 soup).
Qed.

Lemma requested_scrape_fourth_table link w :
  requested (scrape_fourth_table link w).2 = link :: requested w.
Proof.
  unfold scrape_fourth_table. rewrite M_bind_at. unfold http_get.
  destruct (requests_get link) as [[status body]|e]; [simpl | done].
  destruct (negb (status =? 200)); [done|]. rewrite M_bind_at.
  unfold lift at 1.
  destruct (BeautifulSoup (Some body)) as [soup|e]; [|done].
  destruct (length (find_all Tables soup) <? 4)%nat; [done|].
  rewrite M_bind_at. unfold lift at 1.
  by destruct (index (find_all Tables soup) 3).
Qed.

(** A storm link is requested once, for its heading, and once more, for
    its table, unless the heading gave no name. *)
Lemma requested_scrape_storm month link w :
  exists n, (n = 1 \/ n = 2)%nat
    /\ requested (scrape_storm month link w).2
       = (replicate n link ++ requested w)%list.
Proof.
  unfold scrape_storm. rewrite M_bind_at.
  pose proof (requested_get_typhoon_name_from_link link w) as Hname.
  destruct (get_typhoon_name_from_link link w) as [[typhoon_name|e] w1];
    simpl in Hname; [|exists 1%nat; by auto].
  destruct (negb (cell_truthy typhoon_name)); [exists 1%nat; by auto|].
  rewrite M_bind_at.
  pose proof (requested_scrape_fourth_table link w1) as Htable.
  destruct (scrape_fourth_table link w1) as [[table|e] w2]; simpl in Htable;
    rewrite Hname in Htable; [|exists 2%nat; by auto].
  exists 2%nat. split; [by right|].
  destruct table as [[|r table]|]; [done | | done].
  rewrite M_bind_at. unfold lift at 1.
  destruct (add_missing_dates_and_empty_cells (r :: table)); [|done].
  rewrite M_bind_at. unfold lift at 1.
  by destruct (build_track _ month _).
Qed.

(** X22.  The loop over the storm links makes at most two requests for
    each link; when it returns, it has made at least one for each. *)
Theorem scrape_storms_requests month links w :
  (length (requested (scrape_storms month links w).2)
   <= length (requested w) + 2 * length links)%nat
  /\ (is_ok (scrape_storms month links w).1 = true ->
      (length (requested w) + length links
       <= length (requested (scrape_storms month links w).2))%nat).
Proof.
  revert w. induction links as [|link links IH]; intros w.
  - simpl. lia.
  - cbn [scrape_storms]. rewrite M_bind_at.
    destruct (requested_scrape_storm month link w) as (n & Hn & Hstorm).
    assert (length (requested (scrape_storm month link w).2)
            = (n + length (requested w))%nat) as Hlen
      by (by rewrite Hstorm, length_app, length_replicate).
    clear Hstorm.
    destruct (scrape_storm month link w) as [[r|e] w1]; simpl in Hlen.
    + rewrite M_bind_at. destruct (IH w1) as [Hup Hlow].
      destruct (scrape_storms month links w1) as [[all|e] w2]; simpl in *.
      * split; [lia|]. intros _. specialize (Hlow eq_refl). lia.
      * split; [lia | done].
    + simpl. split; [lia | done].
Qed.

End LinkMap.

Lemma link_map_keys_and_urls_witness :
  @extract_links_from_second_table sample_platform (Some (year_url "2021"))
  = Ok (Some links_2021)
  /\ forall basin links,
       links_2021 !! basin = Some links -> Forall absolute links.
Proof.
  assert (@extract_links_from_second_table sample_platform
            (Some (year_url "2021"))
          = Ok (Some links_2021)) as Hlinks by (by vm_compute).
  split; [exact Hlinks|].
  apply (@link_map_keys_and_urls sample_platform (Some (year_url "2021"))
           links_2021 Hlinks).
Defined.

(** ** The entry point *)

Section MainProperties.
Context `{Platform}.

Lemma py_len_truthy d n :
  truthy d = true -> py_len d = Ok n -> 1 <= n.
Proof.
  destruct d as [| | | |s|l|l]; simpl; try done.
  - destruct s; [done|]. intros _ [= <-]. simpl. lia.
  - destruct l; [done|]. intros _ [= <-]. simpl. lia.
  - destruct l; [done|]. intros _ [= <-]. simpl. lia.
Qed.

(** X23.  The line the entry point prints last is "No data available." or
    the count of a dataset that is not empty: a count of 0 is never
    reported. *)
Theorem main_reports year_in month_in basin_in w msg w' :
  main year_in month_in basin_in w = (Ok msg, w') ->
  msg = "No data available."
  \/ exists n, 1 <= n
       /\ msg = "Fetched and cached " +:+ str_of_int n +:+ " typhoons.".
Proof.
  unfold main. rewrite M_bind_at.
  destruct (scrape_typhoon_data _ _ _ _ w) as [[[d|]|e] w1];
    [| intros [= <- _]; by left | done].
  destruct (truthy d) eqn:Hd; [|intros [= <- _]; by left].
  rewrite M_bind_at. unfold lift at 1.
  destruct (py_len d) as [n|e] eqn:Hn; [|done].
  intros [= <- _]. right. exists n. split; [|done].
  by eapply py_len_truthy.
Qed.

End MainProperties.

Lemma main_reports_witness :
  (@main sample_platform " 2020 " "6" "Western Pacific" empty_world).1
  = Ok "Fetched and cached 2 typhoons."
  /\ ("Fetched and cached 2 typhoons." = "No data available."
      \/ exists n, 1 <= n
           /\ "Fetched and cached 2 typhoons."
              = "Fetched and cached " +:+ str_of_int n +:+ " typhoons.").
Proof.
  assert (@main sample_platform " 2020 " "6" "Western Pacific" empty_world
          = (Ok "Fetched and cached 2 typhoons.",
             (@main sample_platform " 2020 " "6" "Western Pacific"
                empty_world).2)) as Hmain.
  { apply injective_projections; [by vm_compute | reflexivity]. }
  split; [by vm_compute|].
  apply (@main_reports sample_platform " 2020 " "6" "Western Pacific"
           empty_world _ _ Hmain).
Defined.

(** ** Storms that are left out *)

Section SkippedStorms.
Context `{Platform}.

Lemma M_bind_ret_at {A} (m : M A) (w : world) : (m ≫= mret) w = m w.
Proof. rewrite M_bind_at. by destruct (m w) as [[a|e] w']. Qed.

(** X24.  A storm page that gives no name (no heading, an empty heading,
    or a failed fetch), or whose table is missing or empty, is left out
    and does not stop the loop: the dataset is that of the other links. *)
Theorem skipped_storm_continues month link links w typhoon_name w1 w2 :
  get_typhoon_name_from_link link w = (Ok typhoon_name, w1) ->
  (cell_truthy typhoon_name = false /\ w2 = w1)
  \/ (cell_truthy typhoon_name = true
      /\ exists t, scrape_fourth_table link w1 = (Ok t, w2)
                   /\ (t = None \/ t = Some [])) ->
  scrape_storms month (link :: links) w = scrape_storms month links w2.
Proof.
  intros Hname Hskip.
  assert (scrape_storm month link w = (Ok None, w2)) as Hstorm.
  { unfold scrape_storm. rewrite M_bind_at, Hname.
    destruct Hskip as [[-> ->]|(-> & t & Ht & Hempty)]; [done|]. simpl.
    rewrite M_bind_at, Ht. by destruct Hempty as [-> | ->]. }
  cbn [scrape_storms]. rewrite M_bind_at, Hstorm.
  apply (M_bind_ret_at (scrape_storms month links) w2).
Qed.

End SkippedStorms.

Lemma skipped_storm_continues_witness :
  @get_typhoon_name_from_link sample_platform (BASE_URL_ALT +:+ "missing")
    empty_world
  = (Ok None, after_requests [BASE_URL_ALT +:+ "missing"])
  /\ cell_truthy None = false
  /\ @scrape_storms sample_platform june
       [BASE_URL_ALT +:+ "missing"; haishen_link] empty_world
     = @scrape_storms sample_platform june [haishen_link]
         (after_requests [BASE_URL_ALT +:+ "missing"]).
Proof.
  split_and!; [reflexivity | reflexivity |].
  apply (@skipped_storm_continues sample_platform june
           (BASE_URL_ALT +:+ "missing") [haishen_link] empty_world None
           (after_requests [BASE_URL_ALT +:+ "missing"])
           (after_requests [BASE_URL_ALT +:+ "missing"]) eq_refl
           (or_introl (conj eq_refl eq_refl))).
Defined.
